(** * PagSeguro payment gateway: model of
      [saleor/payment/gateways/pagseguro/__init__.py]

    The module is embedded shallowly.  Pure helpers
    ([get_error_for_client], [extract_gateway_response],
    [get_billing_data], [get_customer_data]) are Rocq functions.  The
    operations that talk to the processor and raise exceptions are
    written in a small statement monad with three completions
    (fall through, [return], [raise]) over the history of processor
    calls.  Python dictionaries whose keys vary are stdpp [gmap]s.

    The module binds [authorize], [void] and [capture] twice; the
    module namespace is built by running the [def] statements in source
    order, so that which definition callers reach is a theorem and not a
    modelling choice. *)

From stdpp Require Import base option list strings gmap fin_maps.

Local Open Scope string_scope.

(** ** Values *)

(** Python's [decimal.Decimal], finite values only: sign, coefficient
    and exponent.  The module never computes with an amount; it carries
    it around and renders it with [str]. *)
Record Decimal := { dec_sign : bool; dec_coefficient : N; dec_exponent : Z }.

(** An object of the processor's client library that the module passes
    on without looking inside ([bt_transaction.credit_card]). *)
Inductive SdkObject := sdk_object (repr : string).

(** The dictionaries [{"code": ..., "message": ...}] built by
    [extract_gateway_response] and read by [get_error_for_client]. *)
Module ErrorEntry.
Record t := mk { code : string; message : string }.
End ErrorEntry.

(** The dynamically typed values that end up in the response dictionary
    and in the fields of a [GatewayResponse]. *)
Inductive pyval :=
| VNone
| VStr (s : string)
| VDecimal (d : Decimal)
| VErrors (l : list ErrorEntry.t)
| VObject (o : SdkObject).

(** Truthiness of the values the module tests with [not], [or], [all]. *)
Definition truthy_str (s : string) : bool :=
  match s with EmptyString => false | _ => true end.

Definition truthy_opt (o : option string) : bool :=
  match o with None => false | Some s => truthy_str s end.

(** [a or b] on strings. *)
Definition py_or (a b : string) : string := if truthy_str a then a else b.

(** [dict(pairs)]: later pairs overwrite earlier ones. *)
Definition py_dict {V} (pairs : list (string * V)) : gmap string V :=
  foldl (fun d kv => <[kv.1 := kv.2]> d) ∅ pairs.

(** [k in d]. *)
Definition py_in {V} (k : string) (d : gmap string V) : bool :=
  bool_decide (is_Some (d !! k)).

(** ** Interface types ([...interface], [... import ChargeStatus,
    TransactionKind]) *)

(** Modelled from the spec: the declaration of [TransactionKind] is not
    part of the module; the spec gives it as the closed enum
    {AUTH, CAPTURE, VOID, REFUND}. *)
Module TransactionKind.
Inductive t := AUTH | CAPTURE | VOID | REFUND.
End TransactionKind.

(** Modelled from the spec: the declaration of [ChargeStatus] is not
    part of the module.  The module reads the two codes [NOT_CHARGED]
    and [FULLY_REFUNDED] and the list [CHOICES] of (code, label) pairs;
    their values are left open. *)
Module ChargeStatus.
Record enum := mk {
  NOT_CHARGED : string;
  FULLY_REFUNDED : string;
  CHOICES : list (string * string)
}.
End ChargeStatus.

Module AddressData.
Record t := mk {
  first_name : string;
  last_name : string;
  company_name : string;
  postal_code : string;
  street_address_1 : string;
  street_address_2 : string;
  city : string;
  country_area : string;
  country : string
}.
End AddressData.

(** Modelled from the spec: [PaymentData], with the fields the module
    reads. *)
Module PaymentData.
Record t := mk {
  amount : Decimal;
  currency : string;
  token : string;
  customer_id : option string;
  customer_email : string;
  customer_ip_address : option string;
  billing : option AddressData.t;
  order_id : option Z;
  reuse_source : bool
}.
End PaymentData.

(** [config.connection_params], the keyword arguments of
    [get_pagseguro_gateway]. *)
Module ConnectionParams.
Record t := mk {
  sandbox_mode : bool;
  merchant_id : option string;
  public_key : option string;
  private_key : option string
}.
End ConnectionParams.

Module GatewayConfig.
Record t := mk {
  auto_capture : bool;
  require_3d_secure : bool;
  connection_params : ConnectionParams.t
}.
End GatewayConfig.

(** Modelled from the spec: [GatewayResponse].  [customer_id] and
    [raw_response] are the keyword arguments that some calls leave out;
    they then hold [None]. *)
Module GatewayResponse.
Record t := mk {
  is_success : bool;
  action_required : bool;
  kind : TransactionKind.t;
  amount : pyval;
  currency : pyval;
  transaction_id : pyval;
  error : pyval;
  customer_id : pyval;
  raw_response : option (gmap string pyval)
}.
End GatewayResponse.

(** ** The processor's client library, as the module sees it *)

Inductive Environment := Sandbox | Production.

(** [pagseguro_sdk.Configuration(...)] wrapped in a
    [pagseguro_sdk.PagSeguroGateway]. *)
Module Gateway.
Record t := mk {
  environment : Environment;
  merchant_id : option string;
  public_key : option string;
  private_key : option string
}.
End Gateway.

(** Entries of [result.errors.deep_errors]. *)
Module SdkError.
Record t := mk { code : string; message : string }.
End SdkError.

Module ErrorCollection.
Record t := mk { deep_errors : list SdkError.t }.
End ErrorCollection.

Module CustomerDetails.
Record t := mk { id : pyval }.
End CustomerDetails.

(** [result.transaction]; the attribute [id] may be missing, which is
    what [getattr(bt_transaction, "id", "")] provides for. *)
Module Transaction.
Record t := mk {
  id : option pyval;
  currency_iso_code : string;
  amount : Decimal;
  credit_card : SdkObject;
  customer_details : CustomerDetails.t
}.
End Transaction.

(** The raw result of a processor call.  [errors] is only read on a
    failed result. *)
Module RawResult.
Record t := mk {
  is_success : bool;
  errors : ErrorCollection.t;
  transaction : option Transaction.t
}.
End RawResult.

(** The dictionaries returned by [get_customer_data]; their keys are
    fixed, [billing] is the dictionary of [get_billing_data]. *)
Module CustomerData.
Record t := mk {
  order_id : option Z;
  billing : gmap string string;
  risk_data_customer_ip : string;
  customer_email : string
}.
End CustomerData.

(** The ["options"] entry of a sale; an absent key is [None]. *)
Module SaleOptions.
Record t := mk {
  submit_for_settlement : bool;
  store_in_vault_on_success : option bool;
  three_d_secure_required : option bool
}.
End SaleOptions.

(** The argument of [gateway.transaction.sale]; an absent key is
    [None]. *)
Module SalePayload.
Record t := mk {
  amount : string;
  payment_method_nonce : option string;
  customer_id : option string;
  options : SaleOptions.t;
  customer_data : CustomerData.t
}.
End SalePayload.

Inductive SdkRequest :=
| TransactionSale (payload : SalePayload.t)
| TransactionSubmitForSettlement (transaction_id : string) (amount : string)
| TransactionVoid (transaction_id : string)
| TransactionRefund (transaction_id : string) (amount_or_options : string).

(** ** Exceptions and the statement monad *)

Inductive Exn :=
| ImproperlyConfigured (msg : string)
| NotFoundError
| PagSeguroException (msg : string)
| KeyError (key : string)
| TypeError
| NameError (name : string)
| SdkFailure (what : string).

(** What the processor's client does on a call: it hands back a raw
    result or raises. *)
Inductive SdkReply :=
| Reply (result : RawResult.t)
| Throws (e : Exn).

(** The calls made to the processor so far, oldest first. *)
Definition History : Type := list (Gateway.t * SdkRequest).

(** How a statement ends: it falls through with a value, it executes
    [return], or it raises. *)
Inductive Completion (R A : Type) :=
| Normal (a : A)
| Returned (r : R)
| Raised (e : Exn).
Arguments Normal {R A} a.
Arguments Returned {R A} r.
Arguments Raised {R A} e.

(** A statement inside a function that returns [R]. *)
Definition Stmt (R A : Type) : Type := History -> Completion R A * History.

(** A function body: it cannot fall through (every body of the module
    ends in [return] or [raise]). *)
Definition Fn (R : Type) : Type := Stmt R Empty_set.

Definition pure {R A} (a : A) : Stmt R A := fun h => (Normal a, h).

Definition return_ {R A} (r : R) : Stmt R A := fun h => (Returned r, h).

Definition raise {R A} (e : Exn) : Stmt R A := fun h => (Raised e, h).

Definition bind {R A B} (s : Stmt R A) (k : A -> Stmt R B) : Stmt R B :=
  fun h =>
    match s h with
    | (Normal a, h') => k a h'
    | (Returned r, h') => (Returned r, h')
    | (Raised e, h') => (Raised e, h')
    end.

Notation "x <- s1 ;; s2" := (bind s1 (fun x => s2))
  (at level 100, s1 at next level, right associativity).
Notation "s1 ;; s2" := (bind s1 (fun _ => s2))
  (at level 100, right associativity).

(** [if b: s] without [else]. *)
Definition when {R} (b : bool) (s : Stmt R unit) : Stmt R unit :=
  if b then s else pure tt.

(** Calling a function from inside another one: its [return] value is
    the value of the call expression, its exception propagates. *)
Definition call {R A} (f : Fn A) : Stmt R A :=
  fun h =>
    match f h with
    | (Normal x, _) => match x with end
    | (Returned a, h') => (Normal a, h')
    | (Raised e, h') => (Raised e, h')
    end.

(** [try: body except ...]: [handler] selects the clause, if any, that
    matches the exception. *)
Definition try_except {R A} (body : Stmt R A)
    (handler : Exn -> option (Stmt R A)) : Stmt R A :=
  fun h =>
    match body h with
    | (Raised e, h') =>
        match handler e with
        | Some k => k h'
        | None => (Raised e, h')
        end
    | other => other
    end.

(** The completion of a function body, seen as the completion of the
    statement [return f(...)] that ends the calling function: the caller
    returns what the callee returned and raises what it raised. *)
Definition leave {R A} (c : Completion R Empty_set * History)
    : Completion R A * History :=
  match c with
  | (Normal x, _) => match x with end
  | (Returned r, h') => (Returned r, h')
  | (Raised e, h') => (Raised e, h')
  end.

(** A gateway operation of the module. *)
Definition Op : Type :=
  PaymentData.t -> GatewayConfig.t -> Fn GatewayResponse.t.

(** ** Sample inputs

    Concrete payment data, configurations, processors and collaborators,
    used to run the model. *)

Definition sample_pgettext_lazy (context message : string) : string := message.

Definition sample_DEFAULT_ERROR_MESSAGE : string :=
  "Unable to process transaction.".

(** A rendering of amounts good enough for the samples, which all use
    the amount 10.00. *)
Definition sample_decimal_str (d : Decimal) : string := "10.00".

Definition sample_charge_statuses : ChargeStatus.enum :=
  {| ChargeStatus.NOT_CHARGED := "not-charged";
     ChargeStatus.FULLY_REFUNDED := "fully-refunded";
     ChargeStatus.CHOICES :=
       [ ("not-charged", "Not charged");
         ("partially-charged", "Partially charged");
         ("fully-charged", "Fully charged");
         ("partially-refunded", "Partially refunded");
         ("fully-refunded", "Fully refunded") ] |}.

Definition sample_amount : Decimal :=
  {| dec_sign := false; dec_coefficient := 1000%N; dec_exponent := (-2)%Z |}.

(** A payment whose token is an opaque nonce. *)
Definition sample_payment : PaymentData.t :=
  {| PaymentData.amount := sample_amount;
     PaymentData.currency := "USD";
     PaymentData.token := "tok_abc123";
     PaymentData.customer_id := None;
     PaymentData.customer_email := "customer@example.com";
     PaymentData.customer_ip_address := None;
     PaymentData.billing := None;
     PaymentData.order_id := Some 7%Z;
     PaymentData.reuse_source := false |}.

(** A payment whose token is the [FULLY_REFUNDED] code. *)
Definition sample_payment_refunded : PaymentData.t :=
  {| PaymentData.amount := sample_amount;
     PaymentData.currency := "USD";
     PaymentData.token := "fully-refunded";
     PaymentData.customer_id := None;
     PaymentData.customer_email := "customer@example.com";
     PaymentData.customer_ip_address := None;
     PaymentData.billing := None;
     PaymentData.order_id := Some 7%Z;
     PaymentData.reuse_source := false |}.

Definition sample_connection_params : ConnectionParams.t :=
  {| ConnectionParams.sandbox_mode := true;
     ConnectionParams.merchant_id := Some "merchant";
     ConnectionParams.public_key := Some "public";
     ConnectionParams.private_key := Some "private" |}.

(** Complete credentials, automatic capture. *)
Definition sample_config : GatewayConfig.t :=
  {| GatewayConfig.auto_capture := true;
     GatewayConfig.require_3d_secure := false;
     GatewayConfig.connection_params := sample_connection_params |}.

(** A configuration without a merchant id. *)
Definition sample_config_no_merchant : GatewayConfig.t :=
  {| GatewayConfig.auto_capture := true;
     GatewayConfig.require_3d_secure := false;
     GatewayConfig.connection_params :=
       {| ConnectionParams.sandbox_mode := true;
          ConnectionParams.merchant_id := None;
          ConnectionParams.public_key := Some "public";
          ConnectionParams.private_key := Some "private" |} |}.

(** A failed raw result without a transaction, carrying two errors. *)
Definition sample_failed_result : RawResult.t :=
  {| RawResult.is_success := false;
     RawResult.errors :=
       {| ErrorCollection.deep_errors :=
            [ {| SdkError.code := "81503"; SdkError.message := "raw one" |};
              {| SdkError.code := "91506"; SdkError.message := "raw two" |} ]
       |};
     RawResult.transaction := None |}.

(** A transaction object without an [id] attribute. *)
Definition sample_transaction_no_id : Transaction.t :=
  {| Transaction.id := None;
     Transaction.currency_iso_code := "USD";
     Transaction.amount := sample_amount;
     Transaction.credit_card := sdk_object "card";
     Transaction.customer_details := {| CustomerDetails.id := VStr "c1" |} |}.

Definition sample_result_no_id : RawResult.t :=
  {| RawResult.is_success := true;
     RawResult.errors := {| ErrorCollection.deep_errors := [] |};
     RawResult.transaction := Some sample_transaction_no_id |}.

(** A processor that rejects every call with a failed result. *)
Definition sample_processor_failing (h : History)
    (c : Gateway.t * SdkRequest) : SdkReply :=
  Reply sample_failed_result.

(** A processor that never finds the transaction. *)
Definition sample_processor_not_found (h : History)
    (c : Gateway.t * SdkRequest) : SdkReply :=
  Throws NotFoundError.

(** A payment of a customer the processor already knows. *)
Definition sample_payment_known_customer : PaymentData.t :=
  {| PaymentData.amount := sample_amount;
     PaymentData.currency := "USD";
     PaymentData.token := "tok_abc123";
     PaymentData.customer_id := Some "cust_9";
     PaymentData.customer_email := "customer@example.com";
     PaymentData.customer_ip_address := Some "203.0.113.7";
     PaymentData.billing :=
       Some
         {| AddressData.first_name := "Ana";
            AddressData.last_name := "Silva";
            AddressData.company_name := "";
            AddressData.postal_code := "01310-100";
            AddressData.street_address_1 := "Av. Paulista 1000";
            AddressData.street_address_2 := "";
            AddressData.city := "Sao Paulo";
            AddressData.country_area := "SP";
            AddressData.country := "BR" |};
     PaymentData.order_id := Some 8%Z;
     PaymentData.reuse_source := true |}.

(** A payment whose token is the [NOT_CHARGED] code. *)
Definition sample_payment_not_charged : PaymentData.t :=
  {| PaymentData.amount := sample_amount;
     PaymentData.currency := "USD";
     PaymentData.token := "not-charged";
     PaymentData.customer_id := None;
     PaymentData.customer_email := "customer@example.com";
     PaymentData.customer_ip_address := None;
     PaymentData.billing := None;
     PaymentData.order_id := Some 7%Z;
     PaymentData.reuse_source := false |}.

(** A payment whose token is the code "fully-charged". *)
Definition sample_payment_fully_charged : PaymentData.t :=
  {| PaymentData.amount := sample_amount;
     PaymentData.currency := "USD";
     PaymentData.token := "fully-charged";
     PaymentData.customer_id := None;
     PaymentData.customer_email := "customer@example.com";
     PaymentData.customer_ip_address := None;
     PaymentData.billing := None;
     PaymentData.order_id := Some 7%Z;
     PaymentData.reuse_source := false |}.

(** Complete credentials, manual capture. *)
Definition sample_config_manual : GatewayConfig.t :=
  {| GatewayConfig.auto_capture := false;
     GatewayConfig.require_3d_secure := true;
     GatewayConfig.connection_params := sample_connection_params |}.

(** A settled transaction in another currency than the payment's. *)
Definition sample_transaction : Transaction.t :=
  {| Transaction.id := Some (VStr "tx_42");
     Transaction.currency_iso_code := "BRL";
     Transaction.amount :=
       {| dec_sign := false; dec_coefficient := 5000%N;
          dec_exponent := (-2)%Z |};
     Transaction.credit_card := sdk_object "card";
     Transaction.customer_details := {| CustomerDetails.id := VStr "c1" |} |}.

(** A successful raw result that nevertheless carries a deep error. *)
Definition sample_settled_result : RawResult.t :=
  {| RawResult.is_success := true;
     RawResult.errors :=
       {| ErrorCollection.deep_errors :=
            [ {| SdkError.code := "91506"; SdkError.message := "stale" |} ]
       |};
     RawResult.transaction := Some sample_transaction |}.

(** A failed raw result without any deep error. *)
Definition sample_silent_failure : RawResult.t :=
  {| RawResult.is_success := false;
     RawResult.errors := {| ErrorCollection.deep_errors := [] |};
     RawResult.transaction := None |}.

(** A processor that settles every call. *)
Definition sample_processor_settling (h : History)
    (c : Gateway.t * SdkRequest) : SdkReply :=
  Reply sample_settled_result.

(** A processor whose client breaks down on every call. *)
Definition sample_processor_down (h : History)
    (c : Gateway.t * SdkRequest) : SdkReply :=
  Throws (SdkFailure "connection").

(** ** Module constants *)

(** [ERROR_CODES_WHITELIST]: code to message override. *)
Definition ERROR_CODES_WHITELIST : gmap string string :=
  {[ "91506" := "
        Cannot refund transaction unless it is settled.
        Please try again later. Settlement time might vary depending
        on the issuers bank." ]}.

Section Module_.

(** [django.utils.translation.pgettext_lazy]: context and message to
    the message in the active language. *)
Variable pgettext_lazy : string -> string -> string.

(** [DEFAULT_ERROR_MESSAGE] of [.errors]. *)
Variable DEFAULT_ERROR_MESSAGE : string.

(** [str] on a [Decimal]. *)
Variable decimal_str : Decimal -> string.

(** The [ChargeStatus] codes. *)
Variable charge_statuses : ChargeStatus.enum.

(** The processor behind [pagseguro_sdk]: its answer to a call may
    depend on the calls made before.  The module uses the name
    [pagseguro_sdk] as the processor's client library without importing
    it; the model takes the name as bound to that library. *)
Variable processor : History -> Gateway.t * SdkRequest -> SdkReply.

(** A method call on [gateway.transaction]. *)
Definition sdk_call {R} (gateway : Gateway.t) (request : SdkRequest)
    : Stmt R RawResult.t :=
  fun h =>
    match processor h (gateway, request) with
    | Reply result => (Normal result, (h ++ [(gateway, request)])%list)
    | Throws e => (Raised e, (h ++ [(gateway, request)])%list)
    end.

(** [except pagseguro_sdk.exceptions.NotFoundError:
       raise PagSeguroException(DEFAULT_ERROR_MESSAGE)] *)
Definition except_NotFoundError {R A} (e : Exn) : option (Stmt R A) :=
  match e with
  | NotFoundError => Some (raise (PagSeguroException DEFAULT_ERROR_MESSAGE))
  | _ => None
  end.

(** *** Payload helpers *)

Definition get_billing_data (payment_information : PaymentData.t)
    : gmap string string :=
  let billing := ∅ in
  match PaymentData.billing payment_information with
  | Some billing_info =>
      py_dict
        [ ("first_name", AddressData.first_name billing_info);
          ("last_name", AddressData.last_name billing_info);
          ("company", AddressData.company_name billing_info);
          ("postal_code", AddressData.postal_code billing_info);
          ("street_address", AddressData.street_address_1 billing_info);
          ("extended_address", AddressData.street_address_2 billing_info);
          ("locality", AddressData.city billing_info);
          ("region", AddressData.country_area billing_info);
          ("country_code_alpha2", AddressData.country billing_info) ]
  | None => billing
  end.

Definition get_customer_data (payment_information : PaymentData.t)
    : CustomerData.t :=
  {| CustomerData.order_id := PaymentData.order_id payment_information;
     CustomerData.billing := get_billing_data payment_information;
     CustomerData.risk_data_customer_ip :=
       match PaymentData.customer_ip_address payment_information with
       | Some ip => py_or ip ""
       | None => ""
       end;
     CustomerData.customer_email :=
       PaymentData.customer_email payment_information |}.

(** *** Error classification *)

(** The [for] loop of [get_error_for_client]: it returns at the first
    entry whose code is a key of the whitelist, and falls through to
    [default_msg] otherwise. *)
Fixpoint first_whitelisted (whitelist : gmap string string)
    (errors : list ErrorEntry.t) (default_msg : string) : string :=
  match errors with
  | [] => default_msg
  | error :: errors' =>
      match whitelist !! ErrorEntry.code error with
      | Some override => py_or override (ErrorEntry.message error)
      | None => first_whitelisted whitelist errors' default_msg
      end
  end.

(** [get_error_for_client], with the value of the global
    [ERROR_CODES_WHITELIST] that it reads as an argument. *)
Definition get_error_for_client_with (whitelist : gmap string string)
    (errors : list ErrorEntry.t) : string :=
  match errors with
  | [] => ""
  | _ =>
      let default_msg :=
        pgettext_lazy "payment error"
          "Unable to process transaction. Please try again in a moment" in
      first_whitelisted whitelist errors default_msg
  end.

Definition get_error_for_client (errors : list ErrorEntry.t) : string :=
  get_error_for_client_with ERROR_CODES_WHITELIST errors.

(** The reference definition of the classifier, in the words of the
    specification: the empty string for the empty list; for the first
    entry in iteration order whose code is whitelisted, the override,
    or the entry's own message when the override is empty; the fixed
    generic message when no entry is whitelisted. *)
Definition classify_reference (whitelist : gmap string string)
    (errors : list ErrorEntry.t) : string :=
  if bool_decide (errors = []) then ""
  else
    match
      List.find (fun e => py_in (ErrorEntry.code e) whitelist) errors
    with
    | Some e =>
        let override := default "" (whitelist !! ErrorEntry.code e) in
        if bool_decide (override = "") then ErrorEntry.message e
        else override
    | None =>
        pgettext_lazy "payment error"
          "Unable to process transaction. Please try again in a moment"
    end.

(** *** Response normalisation *)

Definition extract_gateway_response (pagseguro_result : RawResult.t)
    : gmap string pyval :=
  let errors := [] in
  let errors :=
    if negb (RawResult.is_success pagseguro_result) then
      List.map
        (fun error =>
           {| ErrorEntry.code := SdkError.code error;
              ErrorEntry.message := SdkError.message error |})
        (ErrorCollection.deep_errors (RawResult.errors pagseguro_result))
    else errors in
  let bt_transaction := RawResult.transaction pagseguro_result in
  match bt_transaction with
  | None => {[ "errors" := VErrors errors ]}
  | Some bt_transaction =>
      py_dict
        [ ("transaction_id",
           default (VStr "") (Transaction.id bt_transaction));
          ("currency", VStr (Transaction.currency_iso_code bt_transaction));
          ("amount", VDecimal (Transaction.amount bt_transaction));
          ("credit_card", VObject (Transaction.credit_card bt_transaction));
          ("customer_id",
           CustomerDetails.id (Transaction.customer_details bt_transaction));
          ("errors", VErrors errors) ]
  end.

(** [gateway_response["errors"]], handed to [get_error_for_client]. *)
Definition subscript_errors {R} (gateway_response : gmap string pyval)
    : Stmt R (list ErrorEntry.t) :=
  match gateway_response !! "errors" with
  | Some (VErrors errors) => pure errors
  | Some _ => raise TypeError
  | None => raise (KeyError "errors")
  end.

(** [d.get(key, fallback)] and [d.get(key)]. *)
Definition dict_get (d : gmap string pyval) (key : string)
    (fallback : pyval) : pyval :=
  default fallback (d !! key).

(** *** The client factory *)

Definition get_pagseguro_gateway (sandbox_mode : bool)
    (merchant_id public_key private_key : option string) : Fn Gateway.t :=
  when (negb (forallb truthy_opt [merchant_id; private_key; public_key]))
    (raise (ImproperlyConfigured "Incorrectly configured PagSeguro gateway."))
  ;;
  let environment := Sandbox in
  let environment := if negb sandbox_mode then Production else environment in
  let gateway :=
    {| Gateway.environment := environment;
       Gateway.merchant_id := merchant_id;
       Gateway.public_key := public_key;
       Gateway.private_key := private_key |} in
  return_ gateway.

(** [get_pagseguro_gateway] applied to the unpacked
    [config.connection_params]. *)
Definition gateway_of (config : GatewayConfig.t) : Fn Gateway.t :=
  let params := GatewayConfig.connection_params config in
  get_pagseguro_gateway
    (ConnectionParams.sandbox_mode params)
    (ConnectionParams.merchant_id params)
    (ConnectionParams.public_key params)
    (ConnectionParams.private_key params).

(** *** Processor-backed operations (first definitions) *)

(** The dictionary that [transaction_for_new_customer] hands to
    [gateway.transaction.sale]. *)
Definition new_customer_sale
    (payment_information : PaymentData.t) (config : GatewayConfig.t)
    : SalePayload.t :=
  {| SalePayload.amount :=
       decimal_str (PaymentData.amount payment_information);
     SalePayload.payment_method_nonce :=
       Some (PaymentData.token payment_information);
     SalePayload.customer_id := None;
     SalePayload.options :=
       {| SaleOptions.submit_for_settlement :=
            GatewayConfig.auto_capture config;
          SaleOptions.store_in_vault_on_success :=
            Some (PaymentData.reuse_source payment_information);
          SaleOptions.three_d_secure_required :=
            Some (GatewayConfig.require_3d_secure config) |};
     SalePayload.customer_data := get_customer_data payment_information |}.

Definition transaction_for_new_customer
    (payment_information : PaymentData.t) (config : GatewayConfig.t)
    : Fn RawResult.t :=
  gateway <- call (gateway_of config);;
  result <-
    sdk_call gateway
      (TransactionSale (new_customer_sale payment_information config));;
  return_ result.

(** The dictionary that [transaction_for_existing_customer] hands to
    [gateway.transaction.sale]. *)
Definition existing_customer_sale
    (payment_information : PaymentData.t) (config : GatewayConfig.t)
    : SalePayload.t :=
  {| SalePayload.amount :=
       decimal_str (PaymentData.amount payment_information);
     SalePayload.payment_method_nonce := None;
     SalePayload.customer_id := PaymentData.customer_id payment_information;
     SalePayload.options :=
       {| SaleOptions.submit_for_settlement :=
            GatewayConfig.auto_capture config;
          SaleOptions.store_in_vault_on_success := None;
          SaleOptions.three_d_secure_required := None |};
     SalePayload.customer_data := get_customer_data payment_information |}.

Definition transaction_for_existing_customer
    (payment_information : PaymentData.t) (config : GatewayConfig.t)
    : Fn RawResult.t :=
  gateway <- call (gateway_of config);;
  result <-
    sdk_call gateway
      (TransactionSale (existing_customer_sale payment_information config));;
  return_ result.

(** The [GatewayResponse(...)] call shared, up to [kind] and
    [customer_id], by the processor-backed operations: the fields fall
    back to the payment data when the dictionary lacks the key. *)
Definition normalized_response (is_success : bool)
    (kind : TransactionKind.t) (customer_id : pyval)
    (payment_information : PaymentData.t)
    (gateway_response : gmap string pyval) (error : string)
    : GatewayResponse.t :=
  {| GatewayResponse.is_success := is_success;
     GatewayResponse.action_required := false;
     GatewayResponse.kind := kind;
     GatewayResponse.amount :=
       dict_get gateway_response "amount"
         (VDecimal (PaymentData.amount payment_information));
     GatewayResponse.currency :=
       dict_get gateway_response "currency"
         (VStr (PaymentData.currency payment_information));
     GatewayResponse.transaction_id :=
       dict_get gateway_response "transaction_id"
         (VStr (PaymentData.token payment_information));
     GatewayResponse.error := VStr error;
     GatewayResponse.customer_id := customer_id;
     GatewayResponse.raw_response := Some gateway_response |}.

(** [authorize], lines 136-162. *)
Definition authorize : Op := fun payment_information config =>
  result <-
    try_except
      (if negb (truthy_opt (PaymentData.customer_id payment_information))
       then call (transaction_for_new_customer payment_information config)
       else
         call (transaction_for_existing_customer payment_information config))
      except_NotFoundError;;
  let gateway_response := extract_gateway_response result in
  errors <- subscript_errors gateway_response;;
  let error := get_error_for_client errors in
  let kind :=
    if GatewayConfig.auto_capture config then TransactionKind.CAPTURE
    else TransactionKind.AUTH in
  return_
    (normalized_response (RawResult.is_success result) kind
       (dict_get gateway_response "customer_id" VNone)
       payment_information gateway_response error).

(** [capture], lines 197-222. *)
Definition capture : Op := fun payment_information config =>
  gateway <- call (gateway_of config);;
  result <-
    try_except
      (sdk_call gateway
         (TransactionSubmitForSettlement
            (PaymentData.token payment_information)
            (decimal_str (PaymentData.amount payment_information))))
      except_NotFoundError;;
  let gateway_response := extract_gateway_response result in
  errors <- subscript_errors gateway_response;;
  let error := get_error_for_client errors in
  return_
    (normalized_response (RawResult.is_success result)
       TransactionKind.CAPTURE VNone
       payment_information gateway_response error).

(** [void], lines 225-247. *)
Definition void : Op := fun payment_information config =>
  gateway <- call (gateway_of config);;
  result <-
    try_except
      (sdk_call gateway
         (TransactionVoid (PaymentData.token payment_information)))
      except_NotFoundError;;
  let gateway_response := extract_gateway_response result in
  errors <- subscript_errors gateway_response;;
  let error := get_error_for_client errors in
  return_
    (normalized_response (RawResult.is_success result)
       TransactionKind.VOID VNone
       payment_information gateway_response error).

(** *** Simulated outcomes *)

Definition dummy_success : Fn bool := return_ true.

(** The [GatewayResponse(...)] call of [refund]'s first [return] and
    of the later definitions of [authorize], [void], [capture] and
    [confirm]: every field comes from the payment data. *)
Definition dummy_response (success : bool) (kind : TransactionKind.t)
    (payment_information : PaymentData.t) (error : pyval)
    : GatewayResponse.t :=
  {| GatewayResponse.is_success := success;
     GatewayResponse.action_required := false;
     GatewayResponse.kind := kind;
     GatewayResponse.amount :=
       VDecimal (PaymentData.amount payment_information);
     GatewayResponse.currency :=
       VStr (PaymentData.currency payment_information);
     GatewayResponse.transaction_id :=
       VStr (PaymentData.token payment_information);
     GatewayResponse.error := error;
     GatewayResponse.customer_id := VNone;
     GatewayResponse.raw_response := None |}.

(** The statements of [refund] that follow its first [return]
    (lines 278-292). *)
Definition refund_tail (payment_information : PaymentData.t)
    (result : RawResult.t) : Fn GatewayResponse.t :=
  let gateway_response := extract_gateway_response result in
  errors <- subscript_errors gateway_response;;
  let error := get_error_for_client errors in
  return_
    (normalized_response (RawResult.is_success result)
       TransactionKind.REFUND VNone
       payment_information gateway_response error).

(** [refund], lines 250-276, followed by [tail]. *)
Definition refund_then
    (tail : PaymentData.t -> RawResult.t -> Fn GatewayResponse.t) : Op :=
  fun payment_information config =>
    gateway <- call (gateway_of config);;
    result <-
      try_except
        (sdk_call gateway
           (TransactionRefund
              (PaymentData.token payment_information)
              (decimal_str (PaymentData.amount payment_information))))
        except_NotFoundError;;
    let error := VNone in
    success <- call dummy_success;;
    let error :=
      if negb success then VStr "Unable to process refund" else error in
    (return_
       (dummy_response success TransactionKind.REFUND
          payment_information error) : Stmt _ unit);;
    tail payment_information result.

(** [refund], lines 250-292. *)
Definition refund : Op := refund_then refund_tail.

(** *** The later definitions (lines 358-425) *)

(** [authorize], lines 358-373. *)
Definition authorize' : Op := fun payment_information config =>
  success <- call dummy_success;;
  let error := VNone in
  let error :=
    if negb success then VStr "Unable to authorize transaction"
    else error in
  return_
    (dummy_response success TransactionKind.AUTH payment_information error).

(** [void], lines 376-389. *)
Definition void' : Op := fun payment_information config =>
  let error := VNone in
  success <- call dummy_success;;
  let error :=
    if negb success then VStr "Unable to void the transaction."
    else error in
  return_
    (dummy_response success TransactionKind.VOID payment_information error).

(** [capture], lines 392-407. *)
Definition capture' : Op := fun payment_information config =>
  let error := VNone in
  success <- call dummy_success;;
  let error :=
    if negb success then VStr "Unable to process capture" else error in
  return_
    (dummy_response success TransactionKind.CAPTURE
       payment_information error).

(** [confirm], lines 410-425. *)
Definition confirm : Op := fun payment_information config =>
  let error := VNone in
  success <- call dummy_success;;
  let error :=
    if negb success then VStr "Unable to process capture" else error in
  return_
    (dummy_response success TransactionKind.CAPTURE
       payment_information error).

(** *** The module namespace *)

(** Running [def] statements in order: each binds its name, replacing
    an earlier binding of the same name. *)
Definition exec_defs (defs : list (string * Op)) : gmap string Op :=
  foldl (fun globals d => <[d.1 := d.2]> globals) ∅ defs.

(** The operations the module defines, in source order. *)
Definition module_defs : list (string * Op) :=
  [ ("authorize", authorize);
    ("capture", capture);
    ("void", void);
    ("refund", refund);
    ("authorize", authorize');
    ("void", void');
    ("capture", capture');
    ("confirm", confirm) ].

(** The namespace once the module is loaded. *)
Definition module_globals : gmap string Op := exec_defs module_defs.

(** A call [name(payment_information, config)] from inside the module:
    the name is looked up in the namespace when the call runs. *)
Definition call_global {R} (globals : gmap string Op) (name : string)
    (payment_information : PaymentData.t) (config : GatewayConfig.t)
    : Stmt R GatewayResponse.t :=
  match (globals !! name : option Op) with
  | Some f => call (f payment_information config)
  | None => raise (NameError name)
  end.

(** [process_payment], lines 295-318, run in the namespace [globals]. *)
Definition process_payment (globals : gmap string Op) : Op :=
  fun payment_information config =>
    let token := PaymentData.token payment_information in
    when (negb (py_in token
                  (py_dict (ChargeStatus.CHOICES charge_statuses))))
      (r <- call_global globals "capture" payment_information config;;
       return_ r);;
    let charge_status := token in
    authorize_response <-
      call_global globals "authorize" payment_information config;;
    when (String.eqb charge_status
            (ChargeStatus.NOT_CHARGED charge_statuses))
      (return_ authorize_response);;
    when (negb (GatewayConfig.auto_capture config))
      (return_ authorize_response);;
    capture_response <-
      call_global globals "capture" payment_information config;;
    when (String.eqb charge_status
            (ChargeStatus.FULLY_REFUNDED charge_statuses))
      (r <- call_global globals "refund" payment_information config;;
       return_ r);;
    return_ capture_response.

(** What a caller of the module reaches under [name]. *)
Definition exposed (name : string) : option Op :=
  if String.eqb name "process_payment"
  then Some (process_payment module_globals)
  else module_globals !! name.

(** *** Vocabulary of the statements below *)

(** The guard of [get_pagseguro_gateway] on the credentials of
    [config]. *)
Definition credentials_complete (config : GatewayConfig.t) : bool :=
  let params := GatewayConfig.connection_params config in
  forallb truthy_opt
    [ ConnectionParams.merchant_id params;
      ConnectionParams.private_key params;
      ConnectionParams.public_key params ].

(** The client that [get_pagseguro_gateway] builds for [config]. *)
Definition gateway_for (config : GatewayConfig.t) : Gateway.t :=
  let params := GatewayConfig.connection_params config in
  {| Gateway.environment :=
       if negb (ConnectionParams.sandbox_mode params) then Production
       else Sandbox;
     Gateway.merchant_id := ConnectionParams.merchant_id params;
     Gateway.public_key := ConnectionParams.public_key params;
     Gateway.private_key := ConnectionParams.private_key params |}.

(** The processor call that [refund] makes. *)
Definition refund_call (payment_information : PaymentData.t)
    (config : GatewayConfig.t) : Gateway.t * SdkRequest :=
  (gateway_for config,
   TransactionRefund
     (PaymentData.token payment_information)
     (decimal_str (PaymentData.amount payment_information))).

(** The processor call of the first definition of [capture]. *)
Definition capture_call (payment_information : PaymentData.t)
    (config : GatewayConfig.t) : Gateway.t * SdkRequest :=
  (gateway_for config,
   TransactionSubmitForSettlement
     (PaymentData.token payment_information)
     (decimal_str (PaymentData.amount payment_information))).

(** The processor call of the first definition of [void]. *)
Definition void_call (payment_information : PaymentData.t)
    (config : GatewayConfig.t) : Gateway.t * SdkRequest :=
  (gateway_for config,
   TransactionVoid (PaymentData.token payment_information)).

(** The processor call of the first definition of [authorize]. *)
Definition authorize_call (payment_information : PaymentData.t)
    (config : GatewayConfig.t) : Gateway.t * SdkRequest :=
  (gateway_for config,
   TransactionSale
     (if negb (truthy_opt (PaymentData.customer_id payment_information))
      then new_customer_sale payment_information config
      else existing_customer_sale payment_information config)).

(** What an operation does once the processor has answered [reply] to
    its call: a raw result lets it go on to [on_result]; not-found
    becomes a [PagSeguroException]; any other exception of the client
    passes through. *)
Definition after_reply {R} (reply : SdkReply)
    (on_result : RawResult.t -> Completion R Empty_set)
    : Completion R Empty_set :=
  match reply with
  | Reply result => on_result result
  | Throws NotFoundError => Raised (PagSeguroException DEFAULT_ERROR_MESSAGE)
  | Throws e => Raised e
  end.

(** The entries that [extract_gateway_response] stores under
    ["errors"]: one per deep error of a failed result, none for a
    successful one. *)
Definition error_entries (result : RawResult.t) : list ErrorEntry.t :=
  if RawResult.is_success result then []
  else
    List.map
      (fun error =>
         {| ErrorEntry.code := SdkError.code error;
            ErrorEntry.message := SdkError.message error |})
      (ErrorCollection.deep_errors (RawResult.errors result)).

(** The exception of [get_pagseguro_gateway]. *)
Definition misconfigured : Exn :=
  ImproperlyConfigured "Incorrectly configured PagSeguro gateway.".

(** The response that the processor-backed operations assemble from a
    raw result. *)
Definition response_of (kind : TransactionKind.t)
    (with_customer : bool) (payment_information : PaymentData.t)
    (result : RawResult.t) : GatewayResponse.t :=
  let gateway_response := extract_gateway_response result in
  normalized_response (RawResult.is_success result) kind
    (if with_customer then dict_get gateway_response "customer_id" VNone
     else VNone)
    payment_information gateway_response
    (get_error_for_client (error_entries result)).

(** The result of an operation that makes no processor call, ignores
    its configuration and succeeds with the given kind, copying
    amount, currency and token from the payment data. *)
Definition succeeds_untouched (f : Op) (kind : TransactionKind.t) : Prop :=
  forall payment_information config h,
    f payment_information config h =
    (Returned
       {| GatewayResponse.is_success := true;
          GatewayResponse.action_required := false;
          GatewayResponse.kind := kind;
          GatewayResponse.amount :=
            VDecimal (PaymentData.amount payment_information);
          GatewayResponse.currency :=
            VStr (PaymentData.currency payment_information);
          GatewayResponse.transaction_id :=
            VStr (PaymentData.token payment_information);
          GatewayResponse.error := VNone;
          GatewayResponse.customer_id := VNone;
          GatewayResponse.raw_response := None |},
     h).

(** The rule "CAPTURE under automatic capture, AUTH otherwise" for the
    kind of the result of [f]. *)
Definition kind_follows_auto_capture (f : Op)
    (payment_information : PaymentData.t) (config : GatewayConfig.t)
    (h : History) : Prop :=
  exists r h',
    f payment_information config h = (Returned r, h') /\
    GatewayResponse.kind r =
      (if GatewayConfig.auto_capture config then TransactionKind.CAPTURE
       else TransactionKind.AUTH).

(** [f] turns a failure into a returned result: unsuccessful, with an
    error. *)
Definition failure_is_returned (f : Op)
    (payment_information : PaymentData.t) (config : GatewayConfig.t)
    (h : History) : Prop :=
  exists r h',
    f payment_information config h = (Returned r, h') /\
    GatewayResponse.is_success r = false /\
    GatewayResponse.error r <> VNone.

(** The hard-wired successful refund: every field fixed or copied from
    the payment data. *)
Definition hard_wired_refund (payment_information : PaymentData.t)
    (r : GatewayResponse.t) : Prop :=
  GatewayResponse.is_success r = true /\
  GatewayResponse.kind r = TransactionKind.REFUND /\
  GatewayResponse.error r = VNone /\
  GatewayResponse.amount r
    = VDecimal (PaymentData.amount payment_information) /\
  GatewayResponse.currency r
    = VStr (PaymentData.currency payment_information) /\
  GatewayResponse.transaction_id r
    = VStr (PaymentData.token payment_information).

(** [token] is a recognised [ChargeStatus] code: the test
    [token in dict(ChargeStatus.CHOICES)] of [process_payment]. *)
Definition recognized (token : string) : bool :=
  py_in token (py_dict (ChargeStatus.CHOICES charge_statuses)).

(** What the missing declaration of [ChargeStatus] is taken to provide
    about [FULLY_REFUNDED]: it is one of the codes of [CHOICES], and it
    is not the code [NOT_CHARGED]. *)
Definition fully_refunded_declared : Prop :=
  recognized (ChargeStatus.FULLY_REFUNDED charge_statuses) = true /\
  ChargeStatus.NOT_CHARGED charge_statuses
    <> ChargeStatus.FULLY_REFUNDED charge_statuses.

(** The generic message of [get_error_for_client]. *)
Definition generic_message : string :=
  pgettext_lazy "payment error"
    "Unable to process transaction. Please try again in a moment".

(** The invariant of [GatewayResponse]: an error is present exactly on
    failure. *)
Definition error_iff_failure (r : GatewayResponse.t) : Prop :=
  GatewayResponse.error r <> VNone <-> GatewayResponse.is_success r = false.

(** A credential that is given: neither [None] nor the empty string. *)
Definition present (credential : option string) : Prop :=
  exists s, credential = Some s /\ s <> "".

(** The earlier definitions that normalise the processor's answer, each
    with the processor call it makes, the kind it reports under a
    configuration, and whether it reports the customer id. *)
Definition processor_backed
    : list (Op * (PaymentData.t -> GatewayConfig.t -> Gateway.t * SdkRequest)
            * (GatewayConfig.t -> TransactionKind.t) * bool) :=
  [ (authorize, authorize_call,
     fun config =>
       if GatewayConfig.auto_capture config then TransactionKind.CAPTURE
       else TransactionKind.AUTH,
     true);
    (capture, capture_call, fun _ => TransactionKind.CAPTURE, false);
    (void, void_call, fun _ => TransactionKind.VOID, false) ].

(** The keys of the dictionary that [extract_gateway_response] builds
    for a result with a transaction. *)
Definition transaction_keys : gset string :=
  {[ "transaction_id"; "currency"; "amount"; "credit_card"; "customer_id";
     "errors" ]}.

(** The keys of the dictionary that [get_billing_data] builds from a
    billing address. *)
Definition billing_keys : gset string :=
  {[ "first_name"; "last_name"; "company"; "postal_code"; "street_address";
     "extended_address"; "locality"; "region"; "country_code_alpha2" ]}.

(** The names under which the module exposes an operation. *)
Definition operation_names : list string :=
  [ "authorize"; "capture"; "void"; "refund"; "confirm"; "process_payment" ].

(** Sequencing of two calls inside [process_payment]: when the first
    returns, the second runs in the history the first left, with the
    first's result at hand; when the first raises, its exception is the
    outcome and the second does not run. *)
Definition and_then
    (first : Completion GatewayResponse.t Empty_set * History)
    (next : GatewayResponse.t -> Fn GatewayResponse.t)
    : Completion GatewayResponse.t Empty_set * History :=
  match first with
  | (Normal x, _) => match x with end
  | (Returned r, h') => next r h'
  | (Raised e, h') => (Raised e, h')
  end.

(** ** Properties *)

(** *** The monad *)

Lemma call_then_return {R A} (f : Fn R) (h : History) :
  (r <- call f;; return_ r) h = @leave R A (f h).
Proof.
  unfold bind, call, return_, leave.
  destruct (f h) as [[[]|r|e] h']; reflexivity.
Qed.

Lemma leave_fn {R} (c : Completion R Empty_set * History) : leave c = c.
Proof. destruct c as [[[]|r|e] h']; reflexivity. Qed.

Lemma leave_bind {R A B} (s : Stmt R A) (k : A -> Stmt R B) h c :
  s h = leave c -> (x <- s;; k x) h = leave c.
Proof.
  unfold bind. intros ->. destruct c as [[[]|r|e] h']; reflexivity.
Qed.

Lemma return_skips {R A B} (r : R) (k : A -> Stmt R B) (h : History) :
  (x <- return_ r;; k x) h = (Returned r, h).
Proof. reflexivity. Qed.

Lemma bind_pure {R A B} (a : A) (k : A -> Stmt R B) (h : History) :
  (x <- pure a;; k x) h = k a h.
Proof. reflexivity. Qed.

(** *** The namespace *)

(** Looking a name up in [module_globals]: the last [def] of that name
    is the binding found. *)
Ltac lookup_global :=
  unfold module_globals, module_defs, exec_defs; simpl; by simplify_map_eq.

Lemma globals_authorize : module_globals !! "authorize" = Some authorize'.
Proof. lookup_global. Qed.

Lemma globals_capture : module_globals !! "capture" = Some capture'.
Proof. lookup_global. Qed.

Lemma globals_void : module_globals !! "void" = Some void'.
Proof. lookup_global. Qed.

Lemma globals_refund : module_globals !! "refund" = Some refund.
Proof. lookup_global. Qed.

Lemma globals_confirm : module_globals !! "confirm" = Some confirm.
Proof. lookup_global. Qed.





(** The namespace binds exactly five operation names. *)
Lemma globals_dom :
  dom module_globals
  = {[ "authorize"; "capture"; "void"; "refund"; "confirm" ]}.
Proof.
  unfold module_globals, module_defs, exec_defs. simpl.
  rewrite !dom_insert_L, dom_empty_L. set_solver.
Qed.

Lemma dummy_authorize : succeeds_untouched authorize' TransactionKind.AUTH.
Proof. intros p c h. reflexivity. Qed.

Lemma dummy_capture : succeeds_untouched capture' TransactionKind.CAPTURE.
Proof. intros p c h. reflexivity. Qed.

Lemma dummy_void : succeeds_untouched void' TransactionKind.VOID.
Proof. intros p c h. reflexivity. Qed.

(** *** The client factory *)

Lemma gateway_of_eval (config : GatewayConfig.t) (h : History) :
  gateway_of config h =
  if credentials_complete config then (Returned (gateway_for config), h)
  else (Raised misconfigured, h).
Proof.
  unfold gateway_of, get_pagseguro_gateway, credentials_complete, gateway_for.
  unfold bind, when.
  destruct (forallb truthy_opt _); reflexivity.
Qed.

(** *** Normalisation always stores the error entries *)

Lemma extract_errors (result : RawResult.t) :
  extract_gateway_response result !! "errors"
  = Some (VErrors (error_entries result)).
Proof.
  unfold extract_gateway_response, error_entries.
  destruct (RawResult.transaction result) as [t|],
           (RawResult.is_success result); simpl;
    unfold py_dict; simpl; by simplify_map_eq.
Qed.

Lemma subscript_errors_extract {R} (result : RawResult.t) (h : History) :
  @subscript_errors R (extract_gateway_response result) h
  = (Normal (error_entries result), h).
Proof. unfold subscript_errors. by rewrite extract_errors. Qed.

(** *** What each processor-backed operation evaluates to *)

(** Run an operation up to the processor's reply: build the client (the
    misconfigured case ends there), make the call, and split on the
    reply and on the exception raised. *)
Ltac run_to_reply c h :=
  unfold bind, call, try_except; rewrite gateway_of_eval;
  destruct (credentials_complete c); [|reflexivity];
  unfold sdk_call, after_reply;
  destruct (processor h _) as [?result|[]]; try reflexivity.

Lemma refund_then_eval tail p c h :
  refund_then tail p c h =
  if credentials_complete c then
    (after_reply (processor h (refund_call p c))
       (fun _ =>
          Returned (dummy_response true TransactionKind.REFUND p VNone)),
     (h ++ [refund_call p c])%list)
  else (Raised misconfigured, h).
Proof.
  unfold refund_then, refund_call. run_to_reply c h.
Qed.

Lemma capture_eval p c h :
  capture p c h =
  if credentials_complete c then
    (after_reply (processor h (capture_call p c))
       (fun result =>
          Returned (response_of TransactionKind.CAPTURE false p result)),
     (h ++ [capture_call p c])%list)
  else (Raised misconfigured, h).
Proof.
  unfold capture, capture_call. run_to_reply c h.
  by rewrite subscript_errors_extract.
Qed.

Lemma void_eval p c h :
  void p c h =
  if credentials_complete c then
    (after_reply (processor h (void_call p c))
       (fun result =>
          Returned (response_of TransactionKind.VOID false p result)),
     (h ++ [void_call p c])%list)
  else (Raised misconfigured, h).
Proof.
  unfold void, void_call. run_to_reply c h.
  by rewrite subscript_errors_extract.
Qed.

Lemma authorize_eval p c h :
  authorize p c h =
  if credentials_complete c then
    (after_reply (processor h (authorize_call p c))
       (fun result =>
          Returned
            (response_of
               (if GatewayConfig.auto_capture c then TransactionKind.CAPTURE
                else TransactionKind.AUTH)
               true p result)),
     (h ++ [authorize_call p c])%list)
  else (Raised misconfigured, h).
Proof.
  unfold authorize, authorize_call.
  destruct (negb (truthy_opt (PaymentData.customer_id p)));
    unfold transaction_for_new_customer, transaction_for_existing_customer;
    run_to_reply c h;
    simpl; by rewrite subscript_errors_extract.
Qed.

(** *** What callers reach *)

Lemma exposed_authorize : exposed "authorize" = Some authorize'.
Proof. unfold exposed. simpl. apply globals_authorize. Qed.

Lemma exposed_capture : exposed "capture" = Some capture'.
Proof. unfold exposed. simpl. apply globals_capture. Qed.

Lemma exposed_void : exposed "void" = Some void'.
Proof. unfold exposed. simpl. apply globals_void. Qed.

Lemma exposed_refund : exposed "refund" = Some refund.
Proof. unfold exposed. simpl. apply globals_refund. Qed.

Lemma exposed_process_payment :
  exposed "process_payment" = Some (process_payment module_globals).
Proof. reflexivity. Qed.

(** C9: the later definitions of [authorize], [capture] and [void]
    replace the earlier ones in the module namespace, so the operations
    that callers reach are the simulated ones: whatever the payment data
    and the configuration, they make no processor call (the history is
    unchanged), do not look at the configuration, and return a
    successful result without error, of kind AUTH, CAPTURE and VOID
    respectively, whose amount, currency and transaction id are those of
    the payment data. *)
Theorem exposed_operations_are_simulated :
  (exists f, exposed "authorize" = Some f
             /\ succeeds_untouched f TransactionKind.AUTH)
  /\ (exists f, exposed "capture" = Some f
                /\ succeeds_untouched f TransactionKind.CAPTURE)
  /\ (exists f, exposed "void" = Some f
                /\ succeeds_untouched f TransactionKind.VOID).
Proof.
  split; [|split].
  - exists authorize'. split; [apply exposed_authorize | apply dummy_authorize].
  - exists capture'. split; [apply exposed_capture | apply dummy_capture].
  - exists void'. split; [apply exposed_void | apply dummy_void].
Qed.

(** C1 (amended): the [authorize] that callers reach returns kind AUTH
    for every payment data and configuration, with automatic capture or
    without; the rule "CAPTURE under automatic capture, AUTH otherwise"
    holds for the results of the earlier, processor-backed definition of
    [authorize], which the later one replaces. *)
Theorem authorize_kind :
  (forall p c h,
     exists f r,
       exposed "authorize" = Some f /\
       f p c h = (Returned r, h) /\
       GatewayResponse.kind r = TransactionKind.AUTH)
  /\ (forall p c h r h',
        authorize p c h = (Returned r, h') ->
        GatewayResponse.kind r =
          (if GatewayConfig.auto_capture c then TransactionKind.CAPTURE
           else TransactionKind.AUTH)).
Proof.
  split.
  - intros p c h. eexists authorize', _.
    split; [apply exposed_authorize|]. split; [apply dummy_authorize|].
    reflexivity.
  - intros p c h r h'. rewrite authorize_eval.
    destruct (credentials_complete c); [|discriminate].
    unfold after_reply.
    destruct (processor h _) as [result|[]]; try discriminate.
    intros [= <- _]. reflexivity.
Qed.

(** C2 (amended): when the processor reports that the transaction was
    not found, [refund] - and likewise the earlier, processor-backed
    definitions of [authorize], [capture] and [void] - raises
    [PagSeguroException] with the default message out of the operation,
    after the one processor call, and returns no result.  The
    [authorize], [capture] and [void] that callers reach make no
    processor call and return a successful result.  An exception that
    leaves [refund] is the configuration error, the
    [PagSeguroException], or an exception other than not-found that the
    processor's client raised. *)
Theorem not_found_is_raised :
  (forall p c h,
     credentials_complete c = true ->
     (processor h (refund_call p c) = Throws NotFoundError ->
      exists f,
        exposed "refund" = Some f /\
        f p c h = (Raised (PagSeguroException DEFAULT_ERROR_MESSAGE),
                   (h ++ [refund_call p c])%list))
     /\ (processor h (authorize_call p c) = Throws NotFoundError ->
         authorize p c h
         = (Raised (PagSeguroException DEFAULT_ERROR_MESSAGE),
            (h ++ [authorize_call p c])%list))
     /\ (processor h (capture_call p c) = Throws NotFoundError ->
         capture p c h
         = (Raised (PagSeguroException DEFAULT_ERROR_MESSAGE),
            (h ++ [capture_call p c])%list))
     /\ (processor h (void_call p c) = Throws NotFoundError ->
         void p c h
         = (Raised (PagSeguroException DEFAULT_ERROR_MESSAGE),
            (h ++ [void_call p c])%list)))
  /\ (forall name, name ∈ ["authorize"; "capture"; "void"] ->
      exists f,
        exposed name = Some f /\
        forall p c h, exists r,
          f p c h = (Returned r, h) /\ GatewayResponse.is_success r = true)
  /\ (forall p c h e h',
        refund p c h = (Raised e, h') ->
        e = misconfigured
        \/ e = PagSeguroException DEFAULT_ERROR_MESSAGE
        \/ (processor h (refund_call p c) = Throws e /\ e <> NotFoundError)).
Proof.
  split; [|split].
  - intros p c h Hc. repeat split.
    + intros Hp. exists refund. split; [apply exposed_refund|].
      unfold refund. by rewrite refund_then_eval, Hc, Hp.
    + intros Hp. by rewrite authorize_eval, Hc, Hp.
    + intros Hp. by rewrite capture_eval, Hc, Hp.
    + intros Hp. by rewrite void_eval, Hc, Hp.
  - intros name Hname.
    repeat (apply elem_of_cons in Hname as [->|Hname]).
    + exists authorize'. split; [apply exposed_authorize|].
      intros p c h. eexists. split; [apply dummy_authorize | reflexivity].
    + exists capture'. split; [apply exposed_capture|].
      intros p c h. eexists. split; [apply dummy_capture | reflexivity].
    + exists void'. split; [apply exposed_void|].
      intros p c h. eexists. split; [apply dummy_void | reflexivity].
    + by apply elem_of_nil in Hname.
  - intros p c h e h'. unfold refund. rewrite refund_then_eval.
    destruct (credentials_complete c); [|intros [= <- _]; by left].
    unfold after_reply.
    destruct (processor h _) as [result|e0] eqn:Hp; [discriminate|].
    destruct e0; intros [= <- _]; try (by right; left);
      right; right; split; done.
Qed.

(** C3 (amended): for every payment data and every configuration whose
    credentials are complete, whenever the processor's client answers
    the refund call with a raw result, [refund] returns a result with
    [is_success = true], kind REFUND, no error, and the amount, currency
    and transaction id of the payment data, whatever the raw result is;
    the statements after the first [return] are never executed:
    replacing them by any others leaves [refund] unchanged. *)
Theorem refund_is_hard_wired :
  (forall p c h result,
     credentials_complete c = true ->
     processor h (refund_call p c) = Reply result ->
     exists r,
       refund p c h = (Returned r, (h ++ [refund_call p c])%list) /\
       hard_wired_refund p r)
  /\ (forall tail p c h, refund_then tail p c h = refund p c h).
Proof.
  split.
  - intros p c h result Hc Hp. eexists. split.
    + unfold refund. rewrite refund_then_eval, Hc, Hp. reflexivity.
    + repeat split.
  - intros tail p c h. unfold refund. by rewrite !refund_then_eval.
Qed.

(** *** The orchestrator *)

Lemma call_global_then_return {A} (globals : gmap string Op) name (f : Op)
    p c h :
  globals !! name = Some f ->
  (r <- call_global globals name p c;; return_ r) h = @leave _ A (f p c h).
Proof.
  intros Hf. unfold call_global. rewrite Hf. apply call_then_return.
Qed.

Lemma bind_call_global {R B} (globals : gmap string Op) name (f : Op)
    p c (k : GatewayResponse.t -> Stmt R B) h r h' :
  globals !! name = Some f ->
  f p c h = (Returned r, h') ->
  (x <- call_global globals name p c;; k x) h = k r h'.
Proof.
  intros Hf Hrun. unfold bind, call_global, call. by rewrite Hf, Hrun.
Qed.

Lemma process_payment_unrecognized (globals : gmap string Op) (f : Op) p c h :
  recognized (PaymentData.token p) = false ->
  globals !! "capture" = Some f ->
  process_payment globals p c h = f p c h.
Proof.
  unfold recognized. intros Hr Hf. unfold process_payment.
  rewrite Hr. simpl.
  rewrite (leave_bind _ _ _ _ (call_global_then_return _ _ _ p c h Hf)).
  apply leave_fn.
Qed.

Lemma refund_returns p c h r h' :
  refund p c h = (Returned r, h') ->
  r = dummy_response true TransactionKind.REFUND p VNone.
Proof.
  unfold refund. rewrite refund_then_eval.
  destruct (credentials_complete c); [|discriminate].
  unfold after_reply.
  destruct (processor h _) as [result|[]]; try discriminate.
  by intros [= <- _].
Qed.

Lemma process_payment_recognized p c h :
  recognized (PaymentData.token p) = true ->
  process_payment module_globals p c h =
  if String.eqb (PaymentData.token p)
       (ChargeStatus.NOT_CHARGED charge_statuses)
  then authorize' p c h
  else if negb (GatewayConfig.auto_capture c) then authorize' p c h
  else if String.eqb (PaymentData.token p)
            (ChargeStatus.FULLY_REFUNDED charge_statuses)
  then refund p c h
  else capture' p c h.
Proof.
  unfold recognized. intros Hr. unfold process_payment.
  rewrite Hr. simpl. rewrite bind_pure.
  rewrite (bind_call_global _ _ _ _ _ _ _ _ _
             globals_authorize (dummy_authorize p c h)).
  destruct (String.eqb _ (ChargeStatus.NOT_CHARGED _)); simpl;
    [by rewrite return_skips, dummy_authorize | rewrite bind_pure].
  destruct (GatewayConfig.auto_capture c); simpl;
    [rewrite bind_pure | by rewrite return_skips, dummy_authorize].
  rewrite (bind_call_global _ _ _ _ _ _ _ _ _
             globals_capture (dummy_capture p c h)).
  destruct (String.eqb _ (ChargeStatus.FULLY_REFUNDED _)); simpl;
    [| by rewrite bind_pure, dummy_capture].
  rewrite (leave_bind _ _ _ _
             (call_global_then_return _ _ _ p c _ globals_refund)).
  apply leave_fn.
Qed.

Lemma bind_call_global_chain (globals : gmap string Op) name (f : Op) p c
    (k : GatewayResponse.t -> Fn GatewayResponse.t) h :
  globals !! name = Some f ->
  (x <- call_global globals name p c;; k x) h = and_then (f p c h) k.
Proof.
  intros Hf. unfold bind, call_global, call, and_then. rewrite Hf.
  destruct (f p c h) as [[[]|r|e] h1]; reflexivity.
Qed.

Lemma and_then_return (first : Completion GatewayResponse.t Empty_set * History) :
  and_then first (fun r => return_ r) = first.
Proof. destruct first as [[[]|r|e] h1]; reflexivity. Qed.

Lemma and_then_ext first (k1 k2 : GatewayResponse.t -> Fn GatewayResponse.t) :
  (forall r h, k1 r h = k2 r h) -> and_then first k1 = and_then first k2.
Proof. intros H. destruct first as [[[]|r|e] h1]; simpl; auto. Qed.

(** [process_payment] for a recognised token, in any namespace that
    binds [authorize]. *)
Lemma process_payment_after_authorize (globals : gmap string Op) (fa : Op)
    p c h :
  recognized (PaymentData.token p) = true ->
  globals !! "authorize" = Some fa ->
  process_payment globals p c h =
  and_then (fa p c h)
    (fun authorize_response =>
       if String.eqb (PaymentData.token p)
            (ChargeStatus.NOT_CHARGED charge_statuses)
       then return_ authorize_response
       else if negb (GatewayConfig.auto_capture c)
       then return_ authorize_response
       else
         capture_response <-
           call_global globals "capture" p c;;
         when (String.eqb (PaymentData.token p)
                 (ChargeStatus.FULLY_REFUNDED charge_statuses))
           (r <- call_global globals "refund" p c;; return_ r);;
         return_ capture_response).
Proof.
  unfold recognized. intros Hr Hfa. unfold process_payment.
  rewrite Hr. simpl. rewrite bind_pure.
  rewrite (bind_call_global_chain _ _ _ _ _ _ _ Hfa).
  apply and_then_ext. intros ra h1.
  destruct (String.eqb _ (ChargeStatus.NOT_CHARGED _)); [reflexivity|].
  simpl. rewrite bind_pure.
  destruct (GatewayConfig.auto_capture c); [|reflexivity].
  simpl. by rewrite bind_pure.
Qed.


(** C4: for every payment data whose token is not a recognised
    [ChargeStatus] code and every configuration, [process_payment]
    returns exactly what [capture] returns for that payment data and
    configuration; neither [authorize] nor [refund] is invoked: in any
    namespace, whatever it binds those two names to, the outcome is that
    of the bound [capture]. *)
Theorem process_payment_delegates_to_capture p c :
  recognized (PaymentData.token p) = false ->
  (exists pp f : Op,
     exposed "process_payment" = Some pp /\
     exposed "capture" = Some f /\
     forall h, pp p c h = f p c h)
  /\ (forall (globals : gmap string Op) (f : Op) h,
        globals !! "capture" = Some f ->
        process_payment globals p c h = f p c h).
Proof.
  intros Hr. split.
  - exists (process_payment module_globals), capture'.
    split; [apply exposed_process_payment|].
    split; [apply exposed_capture|].
    intros h. apply process_payment_unrecognized; [done|apply globals_capture].
  - intros globals f h Hf. by apply process_payment_unrecognized.
Qed.


Lemma dummy_response_invariant kind p :
  error_iff_failure (dummy_response true kind p VNone).
Proof. unfold error_iff_failure. simpl. split; [done|discriminate]. Qed.

Lemma process_payment_returns p c h r h' :
  process_payment module_globals p c h = (Returned r, h') ->
  exists kind, r = dummy_response true kind p VNone.
Proof.
  destruct (recognized (PaymentData.token p)) eqn:Hr.
  - rewrite process_payment_recognized by done.
    repeat case_match; intros Hret;
      try (injection Hret as <- _; by eexists).
    all: eexists; by apply refund_returns in Hret.
  - rewrite (process_payment_unrecognized _ _ _ _ _ Hr globals_capture).
    intros [= <- _]. by eexists.
Qed.

(** C8: every [GatewayResponse] returned by the operations that callers
    reach ([authorize], [capture], [void], [refund], [process_payment])
    has an error exactly when it is unsuccessful; this holds on
    [refund]'s hard-wired success path as well. *)
Theorem exposed_results_error_iff_failure name f p c h r h' :
  name ∈ ["authorize"; "capture"; "void"; "refund"; "process_payment"] ->
  exposed name = Some f ->
  f p c h = (Returned r, h') ->
  error_iff_failure r.
Proof.
  intros Hname.
  repeat (apply elem_of_cons in Hname as [->|Hname]).
  - rewrite exposed_authorize. intros [= <-] [= <- _].
    apply dummy_response_invariant.
  - rewrite exposed_capture. intros [= <-] [= <- _].
    apply dummy_response_invariant.
  - rewrite exposed_void. intros [= <-] [= <- _].
    apply dummy_response_invariant.
  - rewrite exposed_refund. intros [= <-] Hr.
    rewrite (refund_returns _ _ _ _ _ Hr). apply dummy_response_invariant.
  - rewrite exposed_process_payment. intros [= <-] Hr.
    destruct (process_payment_returns _ _ _ _ _ Hr) as [kind ->].
    apply dummy_response_invariant.
  - by apply elem_of_nil in Hname.
Qed.

(** *** The error classifier *)

Lemma first_whitelisted_find whitelist errors d :
  first_whitelisted whitelist errors d =
  match List.find (fun e => py_in (ErrorEntry.code e) whitelist) errors with
  | Some e =>
      let override := default "" (whitelist !! ErrorEntry.code e) in
      if bool_decide (override = "") then ErrorEntry.message e else override
  | None => d
  end.
Proof.
  induction errors as [|error errors IH]; [reflexivity|].
  simpl. unfold py_in.
  destruct (whitelist !! ErrorEntry.code error) as [override|] eqn:E.
  - rewrite bool_decide_true by eauto. simpl. rewrite E. simpl.
    unfold py_or. destruct override; reflexivity.
  - rewrite bool_decide_false by (intros [? ?]; discriminate). apply IH.
Qed.

(** C6: [get_error_for_client] equals the reference definition: the
    empty string for the empty list; for a list with an entry whose code
    is whitelisted, the override of the first such entry, or that
    entry's own message when the override is empty; the fixed generic
    message for a non-empty list without a whitelisted code.  This holds
    for any value of the whitelist, and so for the shipped one. *)
Theorem get_error_for_client_is_reference :
  (forall whitelist errors,
     get_error_for_client_with whitelist errors
     = classify_reference whitelist errors)
  /\ (forall errors,
        get_error_for_client errors
        = classify_reference ERROR_CODES_WHITELIST errors).
Proof.
  assert (forall whitelist errors,
            get_error_for_client_with whitelist errors
            = classify_reference whitelist errors) as Hgen.
  { intros whitelist [|error errors]; [reflexivity|].
    unfold get_error_for_client_with, classify_reference.
    rewrite bool_decide_false by discriminate.
    apply first_whitelisted_find. }
  split; [exact Hgen | intros errors; apply Hgen].
Qed.

Lemma shipped_override_wins code override message :
  ERROR_CODES_WHITELIST !! code = Some override ->
  py_or override message = default "" (ERROR_CODES_WHITELIST !! "91506").
Proof.
  unfold ERROR_CODES_WHITELIST. intros [_ <-]%lookup_singleton_Some.
  by rewrite lookup_singleton_eq.
Qed.

Lemma first_whitelisted_codes l1 l2 d :
  List.map ErrorEntry.code l1 = List.map ErrorEntry.code l2 ->
  first_whitelisted ERROR_CODES_WHITELIST l1 d
  = first_whitelisted ERROR_CODES_WHITELIST l2 d.
Proof.
  revert l2. induction l1 as [|e1 l1 IH]; intros [|e2 l2]; try discriminate;
    [reflexivity|].
  simpl. intros [= Hcode Hrest]. rewrite Hcode.
  destruct (ERROR_CODES_WHITELIST !! ErrorEntry.code e2) as [o|] eqn:E.
  - by rewrite !(shipped_override_wins _ _ _ E).
  - by apply IH.
Qed.

Lemma first_whitelisted_range l d :
  first_whitelisted ERROR_CODES_WHITELIST l d = d
  \/ first_whitelisted ERROR_CODES_WHITELIST l d
     = default "" (ERROR_CODES_WHITELIST !! "91506").
Proof.
  induction l as [|e l IH]; [by left|]. simpl.
  destruct (ERROR_CODES_WHITELIST !! ErrorEntry.code e) as [o|] eqn:E.
  - right. by apply (shipped_override_wins _ _ _ E).
  - apply IH.
Qed.

(** C10: with the shipped whitelist, the result of
    [get_error_for_client] does not depend on the message of any entry:
    two error lists with the same sequence of codes give the same
    string.  The string is the empty one, the override stored under
    "91506", or the generic message, never a message of the processor. *)
Theorem get_error_for_client_ignores_messages :
  (forall l1 l2,
     List.map ErrorEntry.code l1 = List.map ErrorEntry.code l2 ->
     get_error_for_client l1 = get_error_for_client l2)
  /\ (forall l,
        get_error_for_client l = ""
        \/ get_error_for_client l
           = default "" (ERROR_CODES_WHITELIST !! "91506")
        \/ get_error_for_client l = generic_message).
Proof.
  split.
  - intros [|e1 l1] [|e2 l2] Hcodes; try discriminate; [reflexivity|].
    unfold get_error_for_client, get_error_for_client_with.
    by apply first_whitelisted_codes.
  - intros [|e l]; [by left|]. right.
    unfold get_error_for_client, get_error_for_client_with, generic_message.
    destruct (first_whitelisted_range (e :: l)
                (pgettext_lazy "payment error"
                   "Unable to process transaction. Please try again in a moment"))
      as [H|H]; rewrite H; [by right | by left].
Qed.

(** *** The response normaliser *)

(** C7: for a raw result with [is_success = false] and no transaction
    object, [extract_gateway_response] returns a dictionary whose only
    key is "errors", holding one {code, message} entry per deep error,
    in order; "transaction_id", "currency", "amount" and "customer_id"
    are absent.  When a transaction object is present and has no [id]
    attribute, "transaction_id" is the empty string. *)
Theorem extract_gateway_response_shape :
  (forall result,
     RawResult.is_success result = false ->
     RawResult.transaction result = None ->
     extract_gateway_response result
     = {[ "errors" :=
            VErrors
              (List.map
                 (fun error =>
                    {| ErrorEntry.code := SdkError.code error;
                       ErrorEntry.message := SdkError.message error |})
                 (ErrorCollection.deep_errors (RawResult.errors result))) ]}
     /\ dom (extract_gateway_response result) = {[ "errors" ]}
     /\ (forall key,
           key ∈ ["transaction_id"; "currency"; "amount"; "customer_id"] ->
           extract_gateway_response result !! key = None))
  /\ (forall result t,
        RawResult.transaction result = Some t ->
        Transaction.id t = None ->
        extract_gateway_response result !! "transaction_id"
        = Some (VStr "")).
Proof.
  split.
  - intros result Hs Ht. unfold extract_gateway_response.
    rewrite Hs, Ht. simpl. split; [reflexivity|]. split.
    + apply dom_singleton_L.
    + intros key Hkey. apply lookup_singleton_ne.
      repeat (apply elem_of_cons in Hkey as [->|Hkey]); try discriminate.
      by apply elem_of_nil in Hkey.
  - intros result t Ht Hid. unfold extract_gateway_response.
    rewrite Ht, Hid. unfold py_dict. simpl. by simplify_map_eq.
Qed.

(** ** Further properties *)

(** *** The client factory *)

Lemma truthy_opt_present (credential : option string) :
  truthy_opt credential = true <-> present credential.
Proof.
  unfold present. destruct credential as [[|a s]|]; simpl; split.
  - discriminate.
  - intros (s & [= <-] & Hs). done.
  - intros _. eexists. split; [reflexivity | discriminate].
  - done.
  - discriminate.
  - intros (s & Hs & _). discriminate.
Qed.

(** X1: [get_pagseguro_gateway] returns a client exactly when merchant
    id, public key and private key are all given (neither [None] nor
    empty): the client carries the three credentials unchanged and is
    for the sandbox when [sandbox_mode] is set, for production
    otherwise.  When one of them is missing it raises
    [ImproperlyConfigured].  Either way no processor call is made. *)
Theorem get_pagseguro_gateway_guard sandbox_mode merchant_id public_key
    private_key h :
  (present merchant_id /\ present public_key /\ present private_key ->
   get_pagseguro_gateway sandbox_mode merchant_id public_key private_key h
   = (Returned
        {| Gateway.environment :=
             if sandbox_mode then Sandbox else Production;
           Gateway.merchant_id := merchant_id;
           Gateway.public_key := public_key;
           Gateway.private_key := private_key |},
      h))
  /\ (~ (present merchant_id /\ present public_key /\ present private_key) ->
      get_pagseguro_gateway sandbox_mode merchant_id public_key private_key h
      = (Raised
           (ImproperlyConfigured "Incorrectly configured PagSeguro gateway."),
         h)).
Proof.
  unfold get_pagseguro_gateway, bind, when. simpl.
  rewrite <- !truthy_opt_present.
  destruct (truthy_opt merchant_id), (truthy_opt private_key),
    (truthy_opt public_key), sandbox_mode; simpl;
    split; try reflexivity; intros H; try reflexivity;
    try (by destruct H as (? & ? & ?)); by destruct H.
Qed.

(** *** The earlier, processor-backed operations *)

Lemma processor_backed_eval (f : Op) call
    (kind : GatewayConfig.t -> TransactionKind.t) (with_customer : bool) :
  (f, call, kind, with_customer) ∈ processor_backed ->
  forall p c h,
    f p c h =
    if credentials_complete c then
      (after_reply (processor h (call p c))
         (fun raw => Returned (response_of (kind c) with_customer p raw)),
       (h ++ [call p c])%list)
    else (Raised misconfigured, h).
Proof.
  intros Hin.
  repeat (apply elem_of_cons in Hin as [[= -> -> -> ->]|Hin]); intros p c h.
  - apply authorize_eval.
  - apply capture_eval.
  - apply void_eval.
  - by apply elem_of_nil in Hin.
Qed.

(** X2: with complete credentials each processor-backed operation -
    the earlier [authorize], [capture] and [void], and [refund] - makes
    exactly one processor call, whatever the processor answers and
    whether the operation then returns or raises; with a credential
    missing it makes none. *)
Theorem one_processor_call p c h :
  (forall f call kind with_customer,
     (f, call, kind, with_customer) ∈ processor_backed ->
     (f p c h).2
     = if credentials_complete c then (h ++ [call p c])%list else h)
  /\ (refund p c h).2
     = if credentials_complete c then (h ++ [refund_call p c])%list else h.
Proof.
  split.
  - intros f call kind wc Hin. rewrite (processor_backed_eval _ _ _ _ Hin).
    by destruct (credentials_complete c).
  - unfold refund. rewrite refund_then_eval.
    by destruct (credentials_complete c).
Qed.

Lemma response_of_fields kind (with_customer : bool) p raw :
  let r := response_of kind with_customer p raw in
  GatewayResponse.is_success r = RawResult.is_success raw /\
  GatewayResponse.kind r = kind /\
  GatewayResponse.action_required r = false /\
  GatewayResponse.raw_response r = Some (extract_gateway_response raw) /\
  match RawResult.transaction raw with
  | None =>
      GatewayResponse.amount r = VDecimal (PaymentData.amount p) /\
      GatewayResponse.currency r = VStr (PaymentData.currency p) /\
      GatewayResponse.transaction_id r = VStr (PaymentData.token p) /\
      GatewayResponse.customer_id r = VNone
  | Some t =>
      GatewayResponse.amount r = VDecimal (Transaction.amount t) /\
      GatewayResponse.currency r = VStr (Transaction.currency_iso_code t) /\
      GatewayResponse.transaction_id r
      = default (VStr "") (Transaction.id t) /\
      GatewayResponse.customer_id r
      = (if with_customer
         then CustomerDetails.id (Transaction.customer_details t)
         else VNone)
  end.
Proof.
  simpl. repeat (split; [reflexivity|]).
  unfold dict_get, extract_gateway_response.
  destruct (RawResult.transaction raw) as [t|], with_customer;
    unfold py_dict; simpl; repeat split; by simplify_map_eq.
Qed.

(** X3: when the processor answers with a raw result, the earlier
    [authorize], [capture] and [void] return a result whose
    [is_success] is the raw result's and whose [raw_response] is the
    normalised dictionary.  Amount, currency and transaction id are
    those of the processor's transaction when the raw result has one
    (the id being the empty string when the transaction has none), and
    fall back to the amount, currency and token of the payment data when
    it has none; only [authorize] reports the customer id. *)
Theorem processor_backed_fields (f : Op) call
    (kind : GatewayConfig.t -> TransactionKind.t) (with_customer : bool)
    p c h raw :
  (f, call, kind, with_customer) ∈ processor_backed ->
  credentials_complete c = true ->
  processor h (call p c) = Reply raw ->
  exists r,
    f p c h = (Returned r, (h ++ [call p c])%list) /\
    GatewayResponse.is_success r = RawResult.is_success raw /\
    GatewayResponse.kind r = kind c /\
    GatewayResponse.raw_response r = Some (extract_gateway_response raw) /\
    match RawResult.transaction raw with
    | None =>
        GatewayResponse.amount r = VDecimal (PaymentData.amount p) /\
        GatewayResponse.currency r = VStr (PaymentData.currency p) /\
        GatewayResponse.transaction_id r = VStr (PaymentData.token p) /\
        GatewayResponse.customer_id r = VNone
    | Some t =>
        GatewayResponse.amount r = VDecimal (Transaction.amount t) /\
        GatewayResponse.currency r
        = VStr (Transaction.currency_iso_code t) /\
        GatewayResponse.transaction_id r
        = default (VStr "") (Transaction.id t) /\
        GatewayResponse.customer_id r
        = (if with_customer
           then CustomerDetails.id (Transaction.customer_details t)
           else VNone)
    end.
Proof.
  intros Hin Hc Hp. rewrite (processor_backed_eval _ _ _ _ Hin), Hc, Hp.
  eexists. split; [reflexivity|].
  destruct (response_of_fields (kind c) with_customer p raw)
    as (Hs & Hk & _ & Hr & Hfields).
  done.
Qed.

Lemma override_nonempty :
  default "" (ERROR_CODES_WHITELIST !! "91506") <> "".
Proof. unfold ERROR_CODES_WHITELIST. by rewrite lookup_singleton_eq. Qed.

Lemma get_error_for_client_nonempty errors :
  errors <> [] -> generic_message <> "" -> get_error_for_client errors <> "".
Proof.
  intros Hne Hgen. destruct errors as [|e l]; [done|].
  unfold get_error_for_client, get_error_for_client_with.
  destruct (first_whitelisted_range (e :: l) generic_message) as [H|H];
    unfold generic_message in *; rewrite H; [done | apply override_nonempty].
Qed.

(** X4: the error of a result of the earlier [authorize], [capture] and
    [void] is never [None].  For a successful raw result it is the empty
    string, so the rule "an error exactly on failure" does not hold for
    these results; for a failed raw result it is the empty string when
    the processor lists no deep error, and a non-empty message
    otherwise, provided the generic message is not empty. *)
Theorem processor_backed_error (f : Op) call
    (kind : GatewayConfig.t -> TransactionKind.t) (with_customer : bool)
    p c h raw :
  (f, call, kind, with_customer) ∈ processor_backed ->
  credentials_complete c = true ->
  processor h (call p c) = Reply raw ->
  exists r message,
    f p c h = (Returned r, (h ++ [call p c])%list) /\
    GatewayResponse.error r = VStr message /\
    (RawResult.is_success raw = true ->
     message = "" /\ ~ error_iff_failure r) /\
    (RawResult.is_success raw = false ->
     ErrorCollection.deep_errors (RawResult.errors raw) = [] ->
     message = "") /\
    (RawResult.is_success raw = false ->
     ErrorCollection.deep_errors (RawResult.errors raw) <> [] ->
     generic_message <> "" ->
     message <> "").
Proof.
  intros Hin Hc Hp. rewrite (processor_backed_eval _ _ _ _ Hin), Hc, Hp.
  eexists _, _. split; [reflexivity|]. split; [reflexivity|].
  unfold error_entries, error_iff_failure. simpl. split; [|split].
  - intros ->. split; [reflexivity|]. intros [Hiff _].
    assert (true = false) by (apply Hiff; discriminate). discriminate.
  - by intros -> ->.
  - intros -> Hne Hgen. apply get_error_for_client_nonempty; [|done].
    by destruct (ErrorCollection.deep_errors _).
Qed.

(** X5: an exception that leaves the earlier [authorize], [capture] or
    [void] is the configuration error, raised before any processor call,
    or comes out of the one processor call: [PagSeguroException] with
    the default message when the processor reported not-found, and
    otherwise the very exception the processor's client raised.  Reading
    the normalised dictionary never fails. *)
Theorem processor_backed_exceptions (f : Op) call
    (kind : GatewayConfig.t -> TransactionKind.t) (with_customer : bool)
    p c h e h' :
  (f, call, kind, with_customer) ∈ processor_backed ->
  f p c h = (Raised e, h') ->
  (credentials_complete c = false /\ e = misconfigured /\ h' = h)
  \/ (credentials_complete c = true /\ h' = (h ++ [call p c])%list /\
      ((processor h (call p c) = Throws NotFoundError /\
        e = PagSeguroException DEFAULT_ERROR_MESSAGE)
       \/ (processor h (call p c) = Throws e /\ e <> NotFoundError))).
Proof.
  intros Hin. rewrite (processor_backed_eval _ _ _ _ Hin).
  destruct (credentials_complete c); [|intros [= <- <-]; by left].
  unfold after_reply.
  destruct (processor h _) as [raw|e0] eqn:Hp; [discriminate|].
  destruct e0; intros [= <- <-]; right;
    (split; [done|]); (split; [done|]);
    try (by left); right; done.
Qed.

(** *** The response normaliser, with a transaction *)

(** X6: the dictionary of [extract_gateway_response] always has the key
    "errors"; its list has one entry per deep error for a failed raw
    result and is empty for a successful one, even when the successful
    result carries deep errors.  For a raw result with a transaction the
    dictionary has exactly the six keys "transaction_id", "currency",
    "amount", "credit_card", "customer_id" and "errors", holding the
    transaction's values unchanged. *)
Theorem extract_gateway_response_with_transaction :
  (forall raw,
     exists errors,
       extract_gateway_response raw !! "errors" = Some (VErrors errors) /\
       length errors
       = if RawResult.is_success raw then 0
         else length (ErrorCollection.deep_errors (RawResult.errors raw)))
  /\ (forall raw t,
        RawResult.transaction raw = Some t ->
        let d := extract_gateway_response raw in
        dom d = transaction_keys /\
        d !! "transaction_id" = Some (default (VStr "") (Transaction.id t)) /\
        d !! "currency" = Some (VStr (Transaction.currency_iso_code t)) /\
        d !! "amount" = Some (VDecimal (Transaction.amount t)) /\
        d !! "credit_card" = Some (VObject (Transaction.credit_card t)) /\
        d !! "customer_id"
        = Some (CustomerDetails.id (Transaction.customer_details t))).
Proof.
  split.
  - intros raw. exists (error_entries raw). split; [apply extract_errors|].
    unfold error_entries. destruct (RawResult.is_success raw); [done|].
    apply length_map.
  - intros raw t Ht. unfold extract_gateway_response. rewrite Ht.
    unfold py_dict, transaction_keys. simpl. split.
    + rewrite !dom_insert_L, dom_empty_L. set_solver.
    + repeat split; by simplify_map_eq.
Qed.

(** *** What [authorize] sends *)

Lemma py_or_empty (s : string) : py_or s "" = s.
Proof. by destruct s. Qed.

(** X7: with complete credentials the earlier [authorize] sends one
    sale whose amount is the rendered amount of the payment, whose
    [submit_for_settlement] option is [config.auto_capture] and whose
    customer data are those of [get_customer_data].  For a payment with
    a customer id the sale names that customer and carries neither a
    payment-method nonce nor the vault and 3-D-Secure options; for a
    payment without one (no id, or the empty string) it carries the
    token as nonce, [reuse_source] as vault option and
    [config.require_3d_secure], and names no customer. *)
Theorem authorize_sale_payload p c h :
  credentials_complete c = true ->
  exists payload,
    (authorize p c h).2
    = (h ++ [(gateway_for c, TransactionSale payload)])%list /\
    SalePayload.amount payload = decimal_str (PaymentData.amount p) /\
    SaleOptions.submit_for_settlement (SalePayload.options payload)
    = GatewayConfig.auto_capture c /\
    SalePayload.customer_data payload = get_customer_data p /\
    (present (PaymentData.customer_id p) ->
     SalePayload.customer_id payload = PaymentData.customer_id p /\
     SalePayload.payment_method_nonce payload = None /\
     SaleOptions.store_in_vault_on_success (SalePayload.options payload)
     = None /\
     SaleOptions.three_d_secure_required (SalePayload.options payload)
     = None) /\
    (~ present (PaymentData.customer_id p) ->
     SalePayload.customer_id payload = None /\
     SalePayload.payment_method_nonce payload
     = Some (PaymentData.token p) /\
     SaleOptions.store_in_vault_on_success (SalePayload.options payload)
     = Some (PaymentData.reuse_source p) /\
     SaleOptions.three_d_secure_required (SalePayload.options payload)
     = Some (GatewayConfig.require_3d_secure c)).
Proof.
  intros Hc. rewrite authorize_eval, Hc. unfold authorize_call. simpl.
  destruct (truthy_opt (PaymentData.customer_id p)) eqn:Hid; simpl;
    eexists; (split; [reflexivity|]); simpl;
    repeat (split; [reflexivity|]);
    split; intros H; try done.
  - destruct H. by apply truthy_opt_present.
  - apply truthy_opt_present in H. congruence.
Qed.

(** X8: [get_customer_data] copies the order id and the e-mail address,
    and gives the customer's IP address as a string, the empty one when
    the payment has none.  Its billing dictionary is empty when the
    payment has no billing address and otherwise has exactly nine keys,
    under which the address fields are stored (the company name under
    "company", the two street lines under "street_address" and
    "extended_address", the city under "locality", the country area
    under "region", the country under "country_code_alpha2"). *)
Theorem customer_data_shape p :
  let d := get_customer_data p in
  CustomerData.order_id d = PaymentData.order_id p /\
  CustomerData.customer_email d = PaymentData.customer_email p /\
  CustomerData.risk_data_customer_ip d
  = default "" (PaymentData.customer_ip_address p) /\
  match PaymentData.billing p with
  | None => CustomerData.billing d = ∅
  | Some a =>
      let b := CustomerData.billing d in
      dom b = billing_keys /\
      b !! "first_name" = Some (AddressData.first_name a) /\
      b !! "last_name" = Some (AddressData.last_name a) /\
      b !! "company" = Some (AddressData.company_name a) /\
      b !! "postal_code" = Some (AddressData.postal_code a) /\
      b !! "street_address" = Some (AddressData.street_address_1 a) /\
      b !! "extended_address" = Some (AddressData.street_address_2 a) /\
      b !! "locality" = Some (AddressData.city a) /\
      b !! "region" = Some (AddressData.country_area a) /\
      b !! "country_code_alpha2" = Some (AddressData.country a)
  end.
Proof.
  simpl. split; [reflexivity|]. split; [reflexivity|]. split.
  - destruct (PaymentData.customer_ip_address p); [apply py_or_empty|done].
  - unfold get_billing_data.
    destruct (PaymentData.billing p) as [a|]; [|reflexivity].
    unfold py_dict, billing_keys. simpl. split.
    + rewrite !dom_insert_L, dom_empty_L. set_solver.
    + repeat split; by simplify_map_eq.
Qed.

(** *** The classifier with the shipped whitelist *)

Lemma first_whitelisted_shipped l d :
  first_whitelisted ERROR_CODES_WHITELIST l d =
  if bool_decide ("91506" ∈ List.map ErrorEntry.code l)
  then default "" (ERROR_CODES_WHITELIST !! "91506")
  else d.
Proof.
  induction l as [|e l IH]; [reflexivity|]. simpl.
  destruct (decide (ErrorEntry.code e = "91506")) as [Heq|Hne].
  - rewrite Heq. rewrite bool_decide_true by apply list_elem_of_here.
    unfold ERROR_CODES_WHITELIST. rewrite lookup_singleton_eq. reflexivity.
  - unfold ERROR_CODES_WHITELIST at 1.
    rewrite lookup_singleton_ne by done. rewrite IH.
    rewrite (bool_decide_ext
               ("91506" ∈ ErrorEntry.code e :: List.map ErrorEntry.code l)
               ("91506" ∈ List.map ErrorEntry.code l)); [reflexivity|].
    rewrite elem_of_cons. split; [intros [Heq|Hin]; congruence | by right].
Qed.

(** X9: with the shipped whitelist, [get_error_for_client] on a
    non-empty list returns the override of "91506" when some entry has
    that code, at whatever position, and the generic message otherwise;
    so its result does not change when the error list is reordered. *)
Theorem get_error_for_client_shipped :
  (forall l,
     l <> [] ->
     get_error_for_client l
     = if bool_decide ("91506" ∈ List.map ErrorEntry.code l)
       then default "" (ERROR_CODES_WHITELIST !! "91506")
       else generic_message)
  /\ (forall l1 l2,
        l1 ≡ₚ l2 -> get_error_for_client l1 = get_error_for_client l2).
Proof.
  assert (forall l,
            l <> [] ->
            get_error_for_client l
            = if bool_decide ("91506" ∈ List.map ErrorEntry.code l)
              then default "" (ERROR_CODES_WHITELIST !! "91506")
              else generic_message) as Hshape.
  { intros [|e l] Hne; [done|].
    unfold get_error_for_client, get_error_for_client_with, generic_message.
    apply first_whitelisted_shipped. }
  split; [exact Hshape|].
  intros l1 l2 Hperm.
  destruct l1 as [|e1 l1].
  { apply Permutation_nil_l in Hperm. by subst. }
  destruct l2 as [|e2 l2].
  { by apply Permutation_nil_r in Hperm. }
  rewrite !Hshape by done.
  rewrite (bool_decide_ext
             ("91506" ∈ List.map ErrorEntry.code (e1 :: l1))
             ("91506" ∈ List.map ErrorEntry.code (e2 :: l2)));
    [reflexivity|].
  change (List.map ErrorEntry.code) with (fmap (M:=list) ErrorEntry.code).
  by rewrite Hperm.
Qed.

(** *** Recognised tokens *)

Lemma foldl_insert_is_Some {V} (pairs : list (string * V))
    (d : gmap string V) (k : string) :
  is_Some (foldl (fun d kv => <[kv.1 := kv.2]> d) d pairs !! k)
  <-> is_Some (d !! k) \/ k ∈ pairs.*1.
Proof using Type.
  revert d. induction pairs as [|[k' v] pairs IH]; intros d; simpl.
  - rewrite elem_of_nil. split; [by left | by intros [?|[]]].
  - rewrite IH, elem_of_cons, lookup_insert_is_Some. simpl.
    destruct (decide (k' = k)) as [->|Hne]; split.
    + intros _. right. by left.
    + intros _. left. by left.
    + intros [[Heq|[_ Hs]]|Hin]; [done | by left | right; by right].
    + intros [Hs|[Heq|Hin]]; [left; right; done | by subst | by right].
Qed.

(** X10: [process_payment] treats a token as a charge-status code
    exactly when the token is the code of some (code, label) pair of
    [ChargeStatus.CHOICES]; labels, order and repeated codes play no
    part. *)
Theorem recognized_iff_listed token :
  recognized token = true
  <-> token ∈ (ChargeStatus.CHOICES charge_statuses).*1.
Proof using charge_statuses.
  unfold recognized, py_in, py_dict.
  rewrite bool_decide_eq_true, foldl_insert_is_Some. split.
  - intros [Hempty|Hlisted]; [|exact Hlisted].
    rewrite lookup_empty in Hempty. by apply is_Some_None in Hempty.
  - intros Hlisted. right. exact Hlisted.
Qed.

(** *** The orchestrator, path by path *)

(** X11: for a recognised token that is the [NOT_CHARGED] code, or under
    manual capture ([auto_capture] false) for any recognised token,
    [process_payment] is the call to [authorize] and nothing else:
    whatever the namespace binds [capture] and [refund] to, its outcome
    is that of the bound [authorize].  In the module as loaded this is a
    successful result of kind AUTH, reached without any processor
    call. *)
Theorem process_payment_authorize_only p c :
  recognized (PaymentData.token p) = true ->
  PaymentData.token p = ChargeStatus.NOT_CHARGED charge_statuses
  \/ GatewayConfig.auto_capture c = false ->
  (forall (globals : gmap string Op) (fa : Op) h,
     globals !! "authorize" = Some fa ->
     process_payment globals p c h = fa p c h)
  /\ (exists pp : Op,
        exposed "process_payment" = Some pp /\
        forall h, exists r,
          pp p c h = (Returned r, h) /\
          GatewayResponse.kind r = TransactionKind.AUTH /\
          GatewayResponse.is_success r = true).
Proof.
  intros Hr Hcase.
  assert (forall (globals : gmap string Op) (fa : Op) h,
            globals !! "authorize" = Some fa ->
            process_payment globals p c h = fa p c h) as Hgen.
  { intros globals fa h Hfa.
    rewrite (process_payment_after_authorize _ _ _ _ _ Hr Hfa).
    rewrite <- (and_then_return (fa p c h)) at 2.
    apply and_then_ext. intros ra h1.
    destruct Hcase as [Ht|Ha].
    - by rewrite Ht, String.eqb_refl.
    - rewrite Ha. simpl.
      by destruct (String.eqb _ (ChargeStatus.NOT_CHARGED _)). }
  split; [exact Hgen|].
  exists (process_payment module_globals).
  split; [apply exposed_process_payment|]. intros h.
  rewrite (Hgen _ _ h globals_authorize), dummy_authorize.
  eexists. repeat split.
Qed.

(** X12: for a recognised token other than [NOT_CHARGED] and
    [FULLY_REFUNDED], under automatic capture, [process_payment] calls
    [authorize] and then [capture], in that order, and returns what
    [capture] returns; the result of [authorize] is dropped, and an
    exception of [authorize] ends the call before [capture] runs.
    [refund] is not invoked, whatever the namespace binds it to.  In the
    module as loaded the outcome is a successful result of kind CAPTURE,
    reached without any processor call. *)
Theorem process_payment_authorize_then_capture p c :
  recognized (PaymentData.token p) = true ->
  GatewayConfig.auto_capture c = true ->
  PaymentData.token p <> ChargeStatus.NOT_CHARGED charge_statuses ->
  PaymentData.token p <> ChargeStatus.FULLY_REFUNDED charge_statuses ->
  (forall (globals : gmap string Op) (fa fc : Op) h,
     globals !! "authorize" = Some fa ->
     globals !! "capture" = Some fc ->
     process_payment globals p c h
     = and_then (fa p c h) (fun _ => fc p c))
  /\ (exists pp : Op,
        exposed "process_payment" = Some pp /\
        forall h, exists r,
          pp p c h = (Returned r, h) /\
          GatewayResponse.kind r = TransactionKind.CAPTURE /\
          GatewayResponse.is_success r = true).
Proof.
  intros Hr Ha Hnc Hfr.
  apply String.eqb_neq in Hnc, Hfr.
  assert (forall (globals : gmap string Op) (fa fc : Op) h,
            globals !! "authorize" = Some fa ->
            globals !! "capture" = Some fc ->
            process_payment globals p c h
            = and_then (fa p c h) (fun _ => fc p c)) as Hgen.
  { intros globals fa fc h Hfa Hfc.
    rewrite (process_payment_after_authorize _ _ _ _ _ Hr Hfa).
    apply and_then_ext. intros ra h1. rewrite Hnc, Ha, Hfr. simpl.
    rewrite (bind_call_global_chain _ _ _ _ _ _ _ Hfc).
    rewrite <- (and_then_return (fc p c h1)) at 2.
    apply and_then_ext. intros rc h2. by rewrite bind_pure. }
  split; [exact Hgen|].
  exists (process_payment module_globals).
  split; [apply exposed_process_payment|]. intros h.
  rewrite (Hgen _ _ _ h globals_authorize globals_capture).
  rewrite dummy_authorize. simpl. rewrite dummy_capture.
  eexists. repeat split.
Qed.

(** X13: in an arbitrary namespace, for a token equal to
    [FULLY_REFUNDED] under automatic capture, [process_payment] runs
    [authorize], [capture] and [refund] in this order, each in the
    history the previous one left; the first exception ends the chain,
    and the outcome is that of [refund], the two earlier results being
    dropped. *)
Theorem process_payment_refund_chain p c :
  fully_refunded_declared ->
  PaymentData.token p = ChargeStatus.FULLY_REFUNDED charge_statuses ->
  GatewayConfig.auto_capture c = true ->
  forall (globals : gmap string Op) (fa fc fr : Op) h,
    globals !! "authorize" = Some fa ->
    globals !! "capture" = Some fc ->
    globals !! "refund" = Some fr ->
    process_payment globals p c h
    = and_then (fa p c h)
        (fun _ h1 => and_then (fc p c h1) (fun _ => fr p c)).
Proof.
  intros (Hin & Hne) Ht Ha globals fa fc fr h Hfa Hfc Hfr.
  assert (recognized (PaymentData.token p) = true) as Hr by by rewrite Ht.
  rewrite (process_payment_after_authorize _ _ _ _ _ Hr Hfa).
  apply and_then_ext. intros ra h1. rewrite Ht, Ha. simpl.
  destruct (String.eqb_spec (ChargeStatus.FULLY_REFUNDED charge_statuses)
              (ChargeStatus.NOT_CHARGED charge_statuses)) as [E|_];
    [by symmetry in E|].
  rewrite (bind_call_global_chain _ _ _ _ _ _ _ Hfc).
  apply and_then_ext. intros rc h2. rewrite String.eqb_refl. simpl.
  rewrite (leave_bind _ _ _ _ (call_global_then_return _ _ _ p c h2 Hfr)).
  apply leave_fn.
Qed.

(** X14: in the module as loaded, [process_payment] contacts the
    processor or raises only on the refund path: if its call changes the
    history or ends in an exception, then the token is the recognised
    code [FULLY_REFUNDED], automatic capture is on, and the outcome is
    that of [refund].  Whenever it returns, the result is successful,
    has no error, is of kind AUTH, CAPTURE or REFUND - never VOID - and
    carries the amount, currency and token of the payment data. *)
Theorem process_payment_quiet p c h :
  (forall x h',
     process_payment module_globals p c h = (x, h') ->
     h' <> h \/ (exists e, x = Raised e) ->
     recognized (PaymentData.token p) = true /\
     GatewayConfig.auto_capture c = true /\
     PaymentData.token p = ChargeStatus.FULLY_REFUNDED charge_statuses /\
     refund p c h = (x, h'))
  /\ (forall r h',
        process_payment module_globals p c h = (Returned r, h') ->
        GatewayResponse.is_success r = true /\
        GatewayResponse.error r = VNone /\
        GatewayResponse.kind r <> TransactionKind.VOID /\
        GatewayResponse.amount r = VDecimal (PaymentData.amount p) /\
        GatewayResponse.currency r = VStr (PaymentData.currency p) /\
        GatewayResponse.transaction_id r = VStr (PaymentData.token p)).
Proof.
  split.
  - intros x h' Hrun Hloud.
    assert (forall kind,
              (x, h') = (Returned (dummy_response true kind p VNone), h) ->
              False) as Hquiet.
    { intros kind [= -> ->]. destruct Hloud as [?|[e ?]]; done. }
    destruct (recognized (PaymentData.token p)) eqn:Hr.
    + rewrite process_payment_recognized in Hrun by done.
      destruct (String.eqb _ (ChargeStatus.NOT_CHARGED _));
        [rewrite dummy_authorize in Hrun; by destruct (Hquiet _ (eq_sym Hrun))|].
      destruct (GatewayConfig.auto_capture c); simpl in Hrun;
        [|rewrite dummy_authorize in Hrun;
          by destruct (Hquiet _ (eq_sym Hrun))].
      destruct (String.eqb_spec (PaymentData.token p)
                  (ChargeStatus.FULLY_REFUNDED charge_statuses)) as [Ht|_];
        [done|].
      rewrite dummy_capture in Hrun. by destruct (Hquiet _ (eq_sym Hrun)).
    + rewrite (process_payment_unrecognized _ _ _ _ _ Hr globals_capture)
        in Hrun.
      rewrite dummy_capture in Hrun. by destruct (Hquiet _ (eq_sym Hrun)).
  - intros r h' Hrun.
    destruct (process_payment_returns _ _ _ _ _ Hrun) as [kind ->].
    simpl. repeat split; try done.
    intros ->. revert Hrun.
    destruct (recognized (PaymentData.token p)) eqn:Hr.
    + rewrite process_payment_recognized by done.
      repeat case_match; try discriminate.
      intros Hret. apply refund_returns in Hret. discriminate Hret.
    + rewrite (process_payment_unrecognized _ _ _ _ _ Hr globals_capture).
      discriminate.
Qed.

(** *** What the module exposes *)

(** X15: the module exposes an operation under exactly six names,
    "authorize", "capture", "void", "refund", "confirm" and
    "process_payment".  [confirm] is a second copy of the simulated
    capture: for every input it returns what the exposed [capture]
    returns, a successful result of kind CAPTURE, without any processor
    call. *)
Theorem exposed_names :
  (forall name, is_Some (exposed name) <-> name ∈ operation_names)
  /\ (exists confirm_ capture_ : Op,
        exposed "confirm" = Some confirm_ /\
        exposed "capture" = Some capture_ /\
        (forall p c h, confirm_ p c h = capture_ p c h) /\
        succeeds_untouched confirm_ TransactionKind.CAPTURE).
Proof.
  split.
  - intros name. unfold exposed, operation_names.
    destruct (String.eqb_spec name "process_payment") as [->|Hne].
    + split; [intros _|by eauto].
      do 5 apply list_elem_of_further. apply list_elem_of_here.
    + rewrite <- elem_of_dom, globals_dom.
      rewrite !elem_of_union, !elem_of_singleton, !elem_of_cons, elem_of_nil.
      tauto.
  - exists confirm, capture'.
    split; [unfold exposed; simpl; apply globals_confirm|].
    split; [apply exposed_capture|].
    split; intros p c h; reflexivity.
Qed.

End Module_.

(** ** The model run on the samples *)

Local Abbreviation sample_exposed processor :=
  (exposed sample_pgettext_lazy sample_DEFAULT_ERROR_MESSAGE
     sample_decimal_str sample_charge_statuses processor).

Local Abbreviation sample_refund processor :=
  (refund sample_pgettext_lazy sample_DEFAULT_ERROR_MESSAGE
     sample_decimal_str processor).

Local Abbreviation sample_authorize processor :=
  (authorize sample_pgettext_lazy sample_DEFAULT_ERROR_MESSAGE
     sample_decimal_str processor).

Local Abbreviation sample_refund_call :=
  (refund_call sample_decimal_str sample_payment sample_config).

(** Under automatic capture the [authorize] that callers reach returns
    kind AUTH, not CAPTURE. *)
Lemma authorize_kind_counterexample :
  GatewayConfig.auto_capture sample_config = true /\
  exists f,
    sample_exposed sample_processor_failing "authorize" = Some f /\
    ~ kind_follows_auto_capture f sample_payment sample_config [].
Proof.
  split; [reflexivity|]. exists authorize'.
  split; [apply exposed_authorize|].
  intros (r & h' & Hr & Hk). injection Hr as <- _. discriminate Hk.
Qed.

(** The earlier definition of [authorize], run against a processor that
    answers with a failed result, under automatic capture. *)
Lemma authorize_kind_witness :
  exists r h',
    sample_authorize sample_processor_failing sample_payment sample_config []
    = (Returned r, h') /\
    GatewayResponse.kind r = TransactionKind.CAPTURE.
Proof.
  destruct (sample_authorize sample_processor_failing sample_payment
              sample_config []) as [[[]|r|e] h'] eqn:Hrun.
  - exists r, h'. split; [reflexivity|].
    exact (proj2 (authorize_kind sample_pgettext_lazy
                    sample_DEFAULT_ERROR_MESSAGE sample_decimal_str
                    sample_charge_statuses sample_processor_failing)
             sample_payment sample_config [] r h' Hrun).
  - rewrite authorize_eval in Hrun. discriminate Hrun.
Defined.

(** The processor reports not-found to [refund]'s call: [refund] raises
    and returns nothing. *)
Lemma refund_not_found_counterexample :
  sample_processor_not_found [] sample_refund_call = Throws NotFoundError /\
  exists f,
    sample_exposed sample_processor_not_found "refund" = Some f /\
    f sample_payment sample_config []
    = (Raised (PagSeguroException sample_DEFAULT_ERROR_MESSAGE),
       [sample_refund_call]) /\
    ~ failure_is_returned f sample_payment sample_config [].
Proof.
  split; [reflexivity|]. exists (sample_refund sample_processor_not_found).
  split; [apply exposed_refund|].
  assert (sample_refund sample_processor_not_found sample_payment
            sample_config []
          = (Raised (PagSeguroException sample_DEFAULT_ERROR_MESSAGE),
             [sample_refund_call])) as Hrun.
  { unfold refund. rewrite refund_then_eval. reflexivity. }
  split; [exact Hrun|].
  intros (r & h' & Hr & _). rewrite Hrun in Hr. discriminate Hr.
Qed.

Lemma not_found_is_raised_witness :
  exists f,
    sample_exposed sample_processor_not_found "refund" = Some f /\
    f sample_payment sample_config []
    = (Raised (PagSeguroException sample_DEFAULT_ERROR_MESSAGE),
       [sample_refund_call]).
Proof.
  apply (proj1 (proj1 (not_found_is_raised sample_pgettext_lazy
                         sample_DEFAULT_ERROR_MESSAGE sample_decimal_str
                         sample_charge_statuses sample_processor_not_found)
                  sample_payment sample_config [] eq_refl)).
  reflexivity.
Defined.

(** Without a merchant id [refund] raises the configuration error
    before any processor call. *)
Lemma refund_misconfigured_counterexample :
  exists f,
    sample_exposed sample_processor_failing "refund" = Some f /\
    f sample_payment sample_config_no_merchant [] = (Raised misconfigured, [])
    /\ ~ (exists r h',
            f sample_payment sample_config_no_merchant [] = (Returned r, h')
            /\ hard_wired_refund sample_payment r).
Proof.
  exists (sample_refund sample_processor_failing).
  split; [apply exposed_refund|].
  assert (sample_refund sample_processor_failing sample_payment
            sample_config_no_merchant []
          = (Raised misconfigured, [])) as Hrun.
  { unfold refund. rewrite refund_then_eval. reflexivity. }
  split; [exact Hrun|].
  intros (r & h' & Hr & _). rewrite Hrun in Hr. discriminate Hr.
Qed.

(** The processor answers the refund call with a failed result; the
    refund is reported as successful all the same. *)
Lemma refund_is_hard_wired_witness :
  exists r,
    sample_refund sample_processor_failing sample_payment sample_config []
    = (Returned r, [sample_refund_call]) /\
    hard_wired_refund sample_payment r.
Proof.
  apply (proj1 (refund_is_hard_wired sample_pgettext_lazy
                  sample_DEFAULT_ERROR_MESSAGE sample_decimal_str
                  sample_processor_failing)
           sample_payment sample_config [] sample_failed_result).
  - reflexivity.
  - reflexivity.
Defined.

Lemma process_payment_delegates_to_capture_witness :
  recognized sample_charge_statuses (PaymentData.token sample_payment) = false
  /\ exists pp f : Op,
       sample_exposed sample_processor_failing "process_payment" = Some pp /\
       sample_exposed sample_processor_failing "capture" = Some f /\
       forall h, pp sample_payment sample_config h
                 = f sample_payment sample_config h.
Proof.
  split; [vm_compute; reflexivity|].
  apply (process_payment_delegates_to_capture sample_pgettext_lazy
           sample_DEFAULT_ERROR_MESSAGE sample_decimal_str
           sample_charge_statuses sample_processor_failing
           sample_payment sample_config).
  vm_compute. reflexivity.
Defined.

Lemma sample_fully_refunded_declared :
  fully_refunded_declared sample_charge_statuses.
Proof. split; [vm_compute; reflexivity | discriminate]. Defined.


Lemma exposed_results_error_iff_failure_witness :
  error_iff_failure
    (dummy_response true TransactionKind.REFUND sample_payment VNone).
Proof.
  apply (exposed_results_error_iff_failure sample_pgettext_lazy
           sample_DEFAULT_ERROR_MESSAGE sample_decimal_str
           sample_charge_statuses sample_processor_failing
           "refund" (sample_refund sample_processor_failing)
           sample_payment sample_config [] _ [sample_refund_call]).
  - do 3 apply list_elem_of_further. apply list_elem_of_here.
  - apply exposed_refund.
  - unfold refund. rewrite refund_then_eval. reflexivity.
Defined.

(** The same code with two different processor messages. *)
Lemma get_error_for_client_ignores_messages_witness :
  get_error_for_client sample_pgettext_lazy
    [ {| ErrorEntry.code := "91506"; ErrorEntry.message := "raw msg" |} ]
  = get_error_for_client sample_pgettext_lazy
      [ {| ErrorEntry.code := "91506"; ErrorEntry.message := "another" |} ].
Proof.
  apply (proj1 (get_error_for_client_ignores_messages sample_pgettext_lazy)).
  reflexivity.
Defined.

Lemma extract_gateway_response_shape_witness :
  dom (extract_gateway_response sample_failed_result) = {[ "errors" ]}
  /\ extract_gateway_response sample_result_no_id !! "transaction_id"
     = Some (VStr "").
Proof.
  split.
  - apply (proj1 extract_gateway_response_shape sample_failed_result);
      reflexivity.
  - apply (proj2 extract_gateway_response_shape sample_result_no_id
             sample_transaction_no_id); reflexivity.
Defined.

(** ** Scenarios *)

(** A whitelisted code hides the processor's message. *)
Example classify_whitelisted_code :
  get_error_for_client sample_pgettext_lazy
    [ {| ErrorEntry.code := "81503"; ErrorEntry.message := "raw one" |};
      {| ErrorEntry.code := "91506"; ErrorEntry.message := "raw msg" |} ]
  = default "" (ERROR_CODES_WHITELIST !! "91506").
Proof. vm_compute. reflexivity. Qed.

(** The override has the 154 characters of the source literal. *)
Example whitelist_override_length :
  String.length (default "" (ERROR_CODES_WHITELIST !! "91506")) = 154.
Proof. vm_compute. reflexivity. Qed.

(** No whitelisted code: the generic message. *)
Example classify_unknown_code :
  get_error_for_client sample_pgettext_lazy
    [ {| ErrorEntry.code := "81503"; ErrorEntry.message := "raw one" |} ]
  = "Unable to process transaction. Please try again in a moment".
Proof. vm_compute. reflexivity. Qed.

(** An opaque token goes straight to the capture that callers reach; no
    processor call is made. *)
Example process_payment_opaque_token :
  process_payment sample_charge_statuses
    (module_globals sample_pgettext_lazy sample_DEFAULT_ERROR_MESSAGE
       sample_decimal_str sample_processor_failing)
    sample_payment sample_config []
  = (Returned
       (dummy_response true TransactionKind.CAPTURE sample_payment VNone),
     []).
Proof. vm_compute. reflexivity. Qed.

(** The earlier [capture] against the failing processor: an unsuccessful
    result whose error is the generic message, after one call. *)
Example earlier_capture_failing_processor :
  exists r,
    capture sample_pgettext_lazy sample_DEFAULT_ERROR_MESSAGE
      sample_decimal_str sample_processor_failing
      sample_payment sample_config []
    = (Returned r,
       [capture_call sample_decimal_str sample_payment sample_config]) /\
    GatewayResponse.is_success r = false /\
    GatewayResponse.kind r = TransactionKind.CAPTURE /\
    GatewayResponse.transaction_id r = VStr "tok_abc123" /\
    GatewayResponse.error r
    = VStr (default "" (ERROR_CODES_WHITELIST !! "91506")).
Proof. eexists. rewrite capture_eval. repeat split. Qed.

(** ** The further properties run on the samples *)

Local Abbreviation sample_capture processor :=
  (capture sample_pgettext_lazy sample_DEFAULT_ERROR_MESSAGE
     sample_decimal_str processor).

Local Abbreviation sample_void processor :=
  (void sample_pgettext_lazy sample_DEFAULT_ERROR_MESSAGE processor).

Local Abbreviation sample_capture_call :=
  (capture_call sample_decimal_str sample_payment sample_config).

Local Abbreviation sample_void_call :=
  (void_call sample_payment sample_config).

Local Abbreviation sample_globals processor :=
  (module_globals sample_pgettext_lazy sample_DEFAULT_ERROR_MESSAGE
     sample_decimal_str processor).

Lemma sample_capture_is_processor_backed processor :
  (sample_capture processor, capture_call sample_decimal_str,
   fun _ : GatewayConfig.t => TransactionKind.CAPTURE, false)
  ∈ processor_backed sample_pgettext_lazy sample_DEFAULT_ERROR_MESSAGE
      sample_decimal_str processor.
Proof. apply list_elem_of_further, list_elem_of_here. Defined.

Lemma sample_void_is_processor_backed processor :
  (sample_void processor, void_call,
   fun _ : GatewayConfig.t => TransactionKind.VOID, false)
  ∈ processor_backed sample_pgettext_lazy sample_DEFAULT_ERROR_MESSAGE
      sample_decimal_str processor.
Proof. do 2 apply list_elem_of_further. apply list_elem_of_here. Defined.

Lemma get_pagseguro_gateway_guard_witness :
  get_pagseguro_gateway false (Some "merchant") (Some "public")
    (Some "private") []
  = (Returned
       {| Gateway.environment := Production;
          Gateway.merchant_id := Some "merchant";
          Gateway.public_key := Some "public";
          Gateway.private_key := Some "private" |},
     []).
Proof.
  apply (proj1 (get_pagseguro_gateway_guard false (Some "merchant")
                  (Some "public") (Some "private") [])).
  repeat split; eexists; (split; [reflexivity | discriminate]).
Defined.

Lemma one_processor_call_witness :
  (sample_capture sample_processor_down sample_payment sample_config []).2
  = [sample_capture_call].
Proof.
  exact (proj1 (one_processor_call sample_pgettext_lazy
                  sample_DEFAULT_ERROR_MESSAGE sample_decimal_str
                  sample_processor_down sample_payment sample_config [])
           _ _ _ _ (sample_capture_is_processor_backed sample_processor_down)).
Defined.

(** The processor settles in another currency: the result reports the
    processor's currency, amount and transaction id. *)
Lemma processor_backed_fields_witness :
  exists r,
    sample_capture sample_processor_settling sample_payment sample_config []
    = (Returned r, [sample_capture_call]) /\
    GatewayResponse.currency r = VStr "BRL" /\
    GatewayResponse.transaction_id r = VStr "tx_42".
Proof.
  destruct (processor_backed_fields sample_pgettext_lazy
              sample_DEFAULT_ERROR_MESSAGE sample_decimal_str
              sample_processor_settling _ _ _ _
              sample_payment sample_config [] sample_settled_result
              (sample_capture_is_processor_backed sample_processor_settling)
              eq_refl eq_refl)
    as (r & Hrun & _ & _ & _ & _ & Hcurrency & Hid & _).
  exists r. split; [exact Hrun|]. split; [exact Hcurrency | exact Hid].
Defined.

(** A settled capture: successful, with the empty string as error. *)
Lemma processor_backed_error_witness :
  exists r,
    sample_capture sample_processor_settling sample_payment sample_config []
    = (Returned r, [sample_capture_call]) /\
    GatewayResponse.error r = VStr "".
Proof.
  destruct (processor_backed_error sample_pgettext_lazy
              sample_DEFAULT_ERROR_MESSAGE sample_decimal_str
              sample_processor_settling _ _ _ _
              sample_payment sample_config [] sample_settled_result
              (sample_capture_is_processor_backed sample_processor_settling)
              eq_refl eq_refl)
    as (r & message & Hrun & Herror & Hsuccess & _).
  destruct (Hsuccess eq_refl) as [Hempty _].
  exists r. split; [exact Hrun|]. rewrite Herror, Hempty. reflexivity.
Defined.

(** The client breaks down during [void]: its exception comes out. *)
Lemma processor_backed_exceptions_witness :
  sample_processor_down [] sample_void_call = Throws (SdkFailure "connection")
  /\ SdkFailure "connection" <> NotFoundError.
Proof.
  destruct (processor_backed_exceptions sample_pgettext_lazy
              sample_DEFAULT_ERROR_MESSAGE sample_decimal_str
              sample_processor_down _ _ _ _
              sample_payment sample_config []
              (SdkFailure "connection") [sample_void_call]
              (sample_void_is_processor_backed sample_processor_down)
              eq_refl)
    as [(Hc & _)|(_ & _ & [(_ & He)|Hout])].
  - discriminate Hc.
  - discriminate He.
  - exact Hout.
Defined.

Lemma extract_gateway_response_with_transaction_witness :
  dom (extract_gateway_response sample_settled_result) = transaction_keys
  /\ extract_gateway_response sample_settled_result !! "currency"
     = Some (VStr "BRL").
Proof.
  destruct (proj2 extract_gateway_response_with_transaction
              sample_settled_result sample_transaction eq_refl)
    as (Hdom & _ & Hcurrency & _).
  split; [exact Hdom | exact Hcurrency].
Defined.

Lemma authorize_sale_payload_witness :
  exists payload,
    (sample_authorize sample_processor_settling
       sample_payment_known_customer sample_config []).2
    = [(gateway_for sample_config, TransactionSale payload)] /\
    SalePayload.customer_id payload = Some "cust_9" /\
    SalePayload.payment_method_nonce payload = None.
Proof.
  destruct (authorize_sale_payload sample_pgettext_lazy
              sample_DEFAULT_ERROR_MESSAGE sample_decimal_str
              sample_processor_settling
              sample_payment_known_customer sample_config [] eq_refl)
    as (payload & Hsent & _ & _ & _ & Hknown & _).
  exists payload. split; [exact Hsent|].
  destruct Hknown as (Hid & Hnonce & _).
  - eexists. split; [reflexivity | discriminate].
  - split; [exact Hid | exact Hnonce].
Defined.

Lemma get_error_for_client_shipped_witness :
  get_error_for_client sample_pgettext_lazy
    [ {| ErrorEntry.code := "81503"; ErrorEntry.message := "raw one" |};
      {| ErrorEntry.code := "91506"; ErrorEntry.message := "raw two" |} ]
  = get_error_for_client sample_pgettext_lazy
      [ {| ErrorEntry.code := "91506"; ErrorEntry.message := "raw two" |};
        {| ErrorEntry.code := "81503"; ErrorEntry.message := "raw one" |} ].
Proof.
  apply (proj2 (get_error_for_client_shipped sample_pgettext_lazy)).
  apply perm_swap.
Defined.

Lemma recognized_iff_listed_witness :
  recognized sample_charge_statuses "fully-charged" = true.
Proof.
  apply (proj2 (recognized_iff_listed sample_charge_statuses "fully-charged")).
  simpl. do 2 apply list_elem_of_further. apply list_elem_of_here.
Defined.

Lemma process_payment_authorize_only_witness :
  exists pp : Op,
    sample_exposed sample_processor_down "process_payment" = Some pp /\
    forall h, exists r,
      pp sample_payment_not_charged sample_config h = (Returned r, h) /\
      GatewayResponse.kind r = TransactionKind.AUTH /\
      GatewayResponse.is_success r = true.
Proof.
  apply (process_payment_authorize_only sample_pgettext_lazy
           sample_DEFAULT_ERROR_MESSAGE sample_decimal_str
           sample_charge_statuses sample_processor_down
           sample_payment_not_charged sample_config).
  - vm_compute. reflexivity.
  - left. reflexivity.
Defined.

Lemma process_payment_authorize_then_capture_witness :
  exists pp : Op,
    sample_exposed sample_processor_down "process_payment" = Some pp /\
    forall h, exists r,
      pp sample_payment_fully_charged sample_config h = (Returned r, h) /\
      GatewayResponse.kind r = TransactionKind.CAPTURE /\
      GatewayResponse.is_success r = true.
Proof.
  apply (process_payment_authorize_then_capture sample_pgettext_lazy
           sample_DEFAULT_ERROR_MESSAGE sample_decimal_str
           sample_charge_statuses sample_processor_down
           sample_payment_fully_charged sample_config).
  - vm_compute. reflexivity.
  - reflexivity.
  - discriminate.
  - discriminate.
Defined.

(** The chain in the namespace of the module, against a processor that
    never finds the transaction: the refund's exception comes out. *)
Lemma process_payment_refund_chain_witness :
  process_payment sample_charge_statuses
    (sample_globals sample_processor_not_found)
    sample_payment_refunded sample_config []
  = (Raised (PagSeguroException sample_DEFAULT_ERROR_MESSAGE),
     [refund_call sample_decimal_str sample_payment_refunded sample_config]).
Proof.
  rewrite (process_payment_refund_chain sample_charge_statuses
             sample_payment_refunded sample_config
             sample_fully_refunded_declared eq_refl eq_refl
             (sample_globals sample_processor_not_found)
             authorize' capture'
             (sample_refund sample_processor_not_found) []
             (globals_authorize _ _ _ _)
             (globals_capture _ _ _ _)
             (globals_refund _ _ _ _)).
  unfold refund. simpl. rewrite refund_then_eval. reflexivity.
Defined.

Lemma process_payment_quiet_witness :
  recognized sample_charge_statuses (PaymentData.token sample_payment_refunded)
  = true /\
  GatewayConfig.auto_capture sample_config = true /\
  PaymentData.token sample_payment_refunded
  = ChargeStatus.FULLY_REFUNDED sample_charge_statuses /\
  sample_refund sample_processor_not_found sample_payment_refunded
    sample_config []
  = (Raised (PagSeguroException sample_DEFAULT_ERROR_MESSAGE),
     [refund_call sample_decimal_str sample_payment_refunded sample_config]).
Proof.
  apply (proj1 (process_payment_quiet sample_pgettext_lazy
                  sample_DEFAULT_ERROR_MESSAGE sample_decimal_str
                  sample_charge_statuses sample_processor_not_found
                  sample_payment_refunded sample_config [])).
  - vm_compute. reflexivity.
  - right. eexists. reflexivity.
Defined.

Lemma exposed_names_witness :
  is_Some (sample_exposed sample_processor_down "confirm").
Proof.
  apply (proj1 (exposed_names sample_pgettext_lazy
                  sample_DEFAULT_ERROR_MESSAGE sample_decimal_str
                  sample_charge_statuses sample_processor_down)).
  do 4 apply list_elem_of_further. apply list_elem_of_here.
Defined.
